(** * Beer Game engine of supply-chain-optimizer: a shallow embedding

    The development follows [backend/core/game_engine.py] together with the
    models it drives ([backend/models/supply_chain.py],
    [backend/models/orders.py]) and the helpers of [backend/core/utils.py]
    and [backend/core/constants.py].

    [game_engine.py] imports [ORDER_DELAY_WEEKS] from [constants.py], which
    does not define it, and [OrderStatus] from the models package, which does
    not export it; both names are taken as the definitions found in
    [game_engine.py] (last line) and in [orders.py].

    Conventions of the embedding:
    - Python [int] is [Z] (unbounded); Python [str] is [string].
    - Python [float] costs are exact rationals [Q], compared with [==].
      Every cost the engine computes is an integer multiple of 0.5, which
      binary64 represents exactly below 2^52, so no rounding is hidden.
    - The engine object is a record of finite maps ([gmap]); a method
      [m(self, args)] becomes a function taking [self] and returning the
      result paired with the updated engine.
    - [uuid4()] is an input: every method that draws an identifier takes the
      drawn uuid text as its first argument.
    - Wall-clock stamps ([started_at], [created_at]) and logging are never
      read back by the engine and are left out. *)

From Stdlib Require Import ZArith QArith Lia Ascii.
From stdpp Require Import base strings list gmap pretty.

Open Scope Z_scope.

(** ** Python values that reach an f-string *)

Inductive py_value :=
  | py_int (z : Z)
  | py_str (s : string).

(** [format(v)] inside an f-string: [str(v)]. *)
Definition py_format (v : py_value) : string :=
  match v with
  | py_int z => pretty z
  | py_str s => s
  end.

Inductive py_exception :=
  | KeyError (key : string).

Inductive outcome (A : Type) :=
  | Return (a : A)
  | Raise (exc : py_exception).
Arguments Return {A} a.
Arguments Raise {A} exc.

(** ** backend/core/constants.py *)

Record BeerGameConfig := {
  roles : list string;
  max_players_per_chain : Z;
  order_delay_weeks : Z;
  default_weeks : Z;
  default_demand_pattern : string;
  initial_inventory : Z;
  holding_cost_per_unit : Q;
  stockout_cost_per_unit : Q;
}.

Definition ROLE_SHOP : string := "Shop".
Definition ROLE_RETAILER : string := "Retailer".
Definition ROLE_WHOLESALER : string := "Wholesaler".
Definition ROLE_FACTORY : string := "Factory".

Definition BEER_GAME_CONFIG : BeerGameConfig := {|
  roles := ["Shop"; "Retailer"; "Wholesaler"; "Factory"];
  max_players_per_chain := 4;
  order_delay_weeks := 4;
  default_weeks := 52;
  default_demand_pattern := "sine_wave";
  initial_inventory := 100;
  holding_cost_per_unit := 1 # 2;
  stockout_cost_per_unit := 2 # 1;
|}.

Definition BEER_GAME_ROLES : list string :=
  [ROLE_SHOP; ROLE_RETAILER; ROLE_WHOLESALER; ROLE_FACTORY].

(** Module-level constant at the end of game_engine.py. *)
Definition ORDER_DELAY_WEEKS : Z := 4.

(** ** backend/core/utils.py *)

(** [generate_id(prefix)]: [str(uuid4())[:8]], prefixed when the prefix is
    non-empty. *)
Definition generate_id (uuid : string) (prefix : string) : string :=
  let unique_id := String.substring 0 8 uuid in
  if decide (prefix = "") then unique_id else prefix +:+ "_" +:+ unique_id.

Definition generate_game_id (uuid : string) : string := generate_id uuid "game".
Definition generate_player_id (uuid : string) : string := generate_id uuid "player".

Definition calculate_inventory_cost (quantity : Z) (cost_per_unit : Q) : Q :=
  (inject_Z (Z.max 0 quantity) * cost_per_unit)%Q.

Definition calculate_backorder_cost (quantity : Z) (cost_per_unit : Q) : Q :=
  (inject_Z (Z.max 0 (- quantity)) * cost_per_unit)%Q.

(** ** backend/models/orders.py *)

Inductive OrderStatus := PENDING | CONFIRMED | SHIPPED | DELIVERED | CANCELLED.

Record Order := {
  order_id : string;
  from_role : string;
  to_role : string;
  supply_chain_id : string;
  order_game_id : string;
  quantity : Z;
  status : OrderStatus;
  created_week : Z;
  delivery_week : Z;
  actual_delivery_week : option Z;
}.

(** ** backend/models/supply_chain.py *)

Record SupplyChainNode := {
  role : string;
  player_id : string;
  player_name : string;
  inventory : Z;
  backorder : Z;
  current_order : Z;
  incoming_order : Z;
  total_cost : Q;
  orders_history : list Z;
  inventory_history : list Z;
}.

(** [l[-n:]] for a positive [n]. *)
Definition last_entries {A} (n : nat) (l : list A) : list A :=
  drop (length l - n)%nat l.

(** [SupplyChainNode.to_dict]. The dictionary has the node's ten keys, so it
    is given as a record of the same shape. *)
Definition to_dict (self : SupplyChainNode) : SupplyChainNode := {|
  role := role self;
  player_id := player_id self;
  player_name := player_name self;
  inventory := inventory self;
  backorder := backorder self;
  current_order := current_order self;
  incoming_order := incoming_order self;
  total_cost := total_cost self;
  orders_history := last_entries 52 (orders_history self);
  inventory_history := last_entries 52 (inventory_history self);
|}.

Record SupplyChain := {
  chain_id : string;
  chain_game_id : string;
  shop : option SupplyChainNode;
  retailer : option SupplyChainNode;
  wholesaler : option SupplyChainNode;
  factory : option SupplyChainNode;
  current_week : Z;
  chain_total_cost : Q;
}.

(** [SupplyChain(chain_id=..., game_id=...)] with the dataclass defaults. *)
Definition new_SupplyChain (cid gid : string) : SupplyChain := {|
  chain_id := cid;
  chain_game_id := gid;
  shop := None;
  retailer := None;
  wholesaler := None;
  factory := None;
  current_week := 0;
  chain_total_cost := 0;
|}.

Definition get_node (self : SupplyChain) (r : string) : option SupplyChainNode :=
  if decide (r = "Shop") then shop self
  else if decide (r = "Retailer") then retailer self
  else if decide (r = "Wholesaler") then wholesaler self
  else if decide (r = "Factory") then factory self
  else None.

Definition with_shop (self : SupplyChain) (n : option SupplyChainNode) : SupplyChain :=
  {| chain_id := chain_id self; chain_game_id := chain_game_id self;
     shop := n; retailer := retailer self; wholesaler := wholesaler self;
     factory := factory self; current_week := current_week self;
     chain_total_cost := chain_total_cost self |}.

Definition with_retailer (self : SupplyChain) (n : option SupplyChainNode) : SupplyChain :=
  {| chain_id := chain_id self; chain_game_id := chain_game_id self;
     shop := shop self; retailer := n; wholesaler := wholesaler self;
     factory := factory self; current_week := current_week self;
     chain_total_cost := chain_total_cost self |}.

Definition with_wholesaler (self : SupplyChain) (n : option SupplyChainNode) : SupplyChain :=
  {| chain_id := chain_id self; chain_game_id := chain_game_id self;
     shop := shop self; retailer := retailer self; wholesaler := n;
     factory := factory self; current_week := current_week self;
     chain_total_cost := chain_total_cost self |}.

Definition with_factory (self : SupplyChain) (n : option SupplyChainNode) : SupplyChain :=
  {| chain_id := chain_id self; chain_game_id := chain_game_id self;
     shop := shop self; retailer := retailer self; wholesaler := wholesaler self;
     factory := n; current_week := current_week self;
     chain_total_cost := chain_total_cost self |}.

Definition with_current_week (self : SupplyChain) (w : Z) : SupplyChain :=
  {| chain_id := chain_id self; chain_game_id := chain_game_id self;
     shop := shop self; retailer := retailer self; wholesaler := wholesaler self;
     factory := factory self; current_week := w;
     chain_total_cost := chain_total_cost self |}.

Definition set_node (self : SupplyChain) (r : string) (node : SupplyChainNode) : SupplyChain :=
  if decide (r = "Shop") then with_shop self (Some node)
  else if decide (r = "Retailer") then with_retailer self (Some node)
  else if decide (r = "Wholesaler") then with_wholesaler self (Some node)
  else if decide (r = "Factory") then with_factory self (Some node)
  else self.

(** The four slots in the order [get_nodes] lists them. *)
Definition slots (self : SupplyChain) : list (option SupplyChainNode) :=
  [shop self; retailer self; wholesaler self; factory self].

(** [get_nodes]: the present nodes, Shop first and Factory last. *)
Definition get_nodes (self : SupplyChain) : list SupplyChainNode :=
  omap id (slots self).

Definition calculate_total_cost (self : SupplyChain) : Q :=
  foldl (fun acc node => (acc + total_cost node)%Q) 0%Q (get_nodes self).

(** ** backend/core/game_engine.py *)

(** The dictionary stored under [self.games[game_id]]. *)
Record Game := {
  game_id : string;
  num_chains : Z;
  weeks : Z;
  demand_pattern : string;
  game_current_week : Z;
  game_status : string;
  supply_chains : list string;
}.

Record BeerGameEngine := {
  games : gmap string Game;
  engine_supply_chains : gmap string SupplyChain;
  orders : gmap string (list Order);
  order_queue : gmap string (list Z);
}.

(** [BeerGameEngine.__init__]. *)
Definition new_engine : BeerGameEngine := {|
  games := ∅;
  engine_supply_chains := ∅;
  orders := ∅;
  order_queue := ∅;
|}.

Definition with_games (self : BeerGameEngine) (g : gmap string Game) : BeerGameEngine :=
  {| games := g; engine_supply_chains := engine_supply_chains self;
     orders := orders self; order_queue := order_queue self |}.

Definition with_supply_chains (self : BeerGameEngine) (s : gmap string SupplyChain)
  : BeerGameEngine :=
  {| games := games self; engine_supply_chains := s;
     orders := orders self; order_queue := order_queue self |}.

Definition append_chain (cid : string) (g : Game) : Game :=
  {| game_id := game_id g; num_chains := num_chains g; weeks := weeks g;
     demand_pattern := demand_pattern g; game_current_week := game_current_week g;
     game_status := game_status g; supply_chains := supply_chains g ++ [cid] |}.

(** Body of the loop [for i in range(num_chains)] of [create_game]. *)
Definition create_chain (gid : string) (self : BeerGameEngine) (i : nat) : BeerGameEngine :=
  let cid := gid +:+ "_chain_" +:+ py_format (py_int (Z.of_nat i)) in
  {| games := alter (append_chain cid) gid (games self);
     engine_supply_chains := <[cid := new_SupplyChain cid gid]> (engine_supply_chains self);
     orders := <[cid := []]> (orders self);
     order_queue := <[cid := []]> (order_queue self) |}.

(** [range(n)] for an integer [n]: empty when [n <= 0]. *)
Definition py_range (n : Z) : list nat := seq 0 (Z.to_nat n).

(** The dictionary [create_game] stores under the new game id, before any
    chain is appended to it. *)
Definition empty_game (gid : string) (n_chains n_weeks : Z) (pattern : string) : Game :=
  {| game_id := gid; num_chains := n_chains; weeks := n_weeks;
     demand_pattern := pattern; game_current_week := 0;
     game_status := "waiting"; supply_chains := [] |}.

Definition create_game (uuid : string) (self : BeerGameEngine)
    (n_chains n_weeks : Z) (pattern : string) : string * BeerGameEngine :=
  let gid := generate_game_id uuid in
  let game := empty_game gid n_chains n_weeks pattern in
  let self1 := with_games self (<[gid := game]> (games self)) in
  (gid, foldl (create_chain gid) self1 (py_range n_chains)).

(** The node built by [join_game]; the remaining fields take the dataclass
    defaults. *)
Definition new_node (r pid pname : string) (inv : Z) : SupplyChainNode := {|
  role := r; player_id := pid; player_name := pname; inventory := inv;
  backorder := 0; current_order := 0; incoming_order := 0; total_cost := 0;
  orders_history := []; inventory_history := [];
|}.

Definition join_game (uuid : string) (self : BeerGameEngine)
    (gid supply_chain_id r pname : string) : option string * BeerGameEngine :=
  match games self !! gid with
  | None => (None, self)
  | Some _ =>
    if decide (r ∈ BEER_GAME_ROLES) then
      let cid := gid +:+ "_" +:+ supply_chain_id in
      match engine_supply_chains self !! cid with
      | None => (None, self)
      | Some supply_chain =>
        let pid := generate_player_id uuid in
        let node := new_node r pid pname (initial_inventory BEER_GAME_CONFIG) in
        (Some pid,
         with_supply_chains self
           (<[cid := set_node supply_chain r node]> (engine_supply_chains self)))
      end
    else (None, self)
  end.

Definition with_incoming_order (n : SupplyChainNode) (q : Z) : SupplyChainNode :=
  {| role := role n; player_id := player_id n; player_name := player_name n;
     inventory := inventory n; backorder := backorder n;
     current_order := current_order n; incoming_order := q;
     total_cost := total_cost n; orders_history := orders_history n;
     inventory_history := inventory_history n |}.

Definition with_current_order (n : SupplyChainNode) (q : Z) : SupplyChainNode :=
  {| role := role n; player_id := player_id n; player_name := player_name n;
     inventory := inventory n; backorder := backorder n;
     current_order := q; incoming_order := incoming_order n;
     total_cost := total_cost n; orders_history := orders_history n;
     inventory_history := inventory_history n |}.

Definition place_customer_order (self : BeerGameEngine)
    (gid cid : string) (week qty : Z) : bool * BeerGameEngine :=
  let full_chain_id := gid +:+ "_" +:+ cid in
  match engine_supply_chains self !! full_chain_id with
  | None => (false, self)
  | Some supply_chain =>
    match shop supply_chain with
    | Some s =>
      (true,
       with_supply_chains self
         (<[full_chain_id := with_shop supply_chain (Some (with_incoming_order s qty))]>
            (engine_supply_chains self)))
    | None => (false, self)
    end
  end.

(** [process_order]. The ledger is reached with [self.orders[full_chain_id]],
    which raises [KeyError] when the chain has no ledger; nothing has been
    written at that point. *)
Definition process_order (uuid : string) (self : BeerGameEngine)
    (gid cid r_from r_to : string) (qty : Z)
  : outcome (option string) * BeerGameEngine :=
  let full_chain_id := gid +:+ "_" +:+ cid in
  match engine_supply_chains self !! full_chain_id with
  | None => (Return None, self)
  | Some supply_chain =>
    match get_node supply_chain r_from, get_node supply_chain r_to with
    | Some from_node, Some _ =>
      let oid := generate_id uuid "order" in
      let week := current_week supply_chain in
      let order := {| order_id := oid; from_role := r_from; to_role := r_to;
                      supply_chain_id := full_chain_id; order_game_id := gid;
                      quantity := qty; status := PENDING; created_week := week;
                      delivery_week := week + ORDER_DELAY_WEEKS;
                      actual_delivery_week := None |} in
      match orders self !! full_chain_id with
      | None => (Raise (KeyError full_chain_id), self)
      | Some ledger =>
        (Return (Some oid),
         {| games := games self;
            engine_supply_chains :=
              <[full_chain_id := set_node supply_chain r_from
                                   (with_current_order from_node qty)]>
                (engine_supply_chains self);
            orders := <[full_chain_id := ledger ++ [order]]> (orders self);
            order_queue := order_queue self |})
      end
    | _, _ => (Return None, self)
    end
  end.

(** The test of the loop in [_get_incoming_orders]. *)
Definition arrives (r : string) (week : Z) (order : Order) : bool :=
  bool_decide (to_role order = r) && bool_decide (delivery_week order = week).

Definition deliver (week : Z) (order : Order) : Order :=
  {| order_id := order_id order; from_role := from_role order;
     to_role := to_role order; supply_chain_id := supply_chain_id order;
     order_game_id := order_game_id order; quantity := quantity order;
     status := DELIVERED; created_week := created_week order;
     delivery_week := delivery_week order;
     actual_delivery_week := Some week |}.

Definition scan_order (r : string) (week : Z) (order : Order) : Order :=
  if arrives r week order then deliver week order else order.

(** [_get_incoming_orders]: the orders due are stamped in place in the
    chain's ledger and returned. A chain without ledger yields the empty
    default list and no write. *)
Definition _get_incoming_orders (ledgers : gmap string (list Order))
    (cid r : string) (week : Z) : list Order * gmap string (list Order) :=
  let ledger := default [] (ledgers !! cid) in
  (deliver week <$> filter (fun o => arrives r week o = true) ledger,
   alter (fmap (scan_order r week)) cid ledgers).

Definition sum_quantities (incoming : list Order) : Z :=
  foldl (fun acc o => acc + quantity o) 0 incoming.

(** [_process_node_week]: the node is updated in place; the ledgers change
    through [_get_incoming_orders]. *)
Definition _process_node_week (ledgers : gmap string (list Order))
    (supply_chain : SupplyChain) (node : SupplyChainNode) (week : Z)
  : SupplyChainNode * gmap string (list Order) :=
  let '(incoming, ledgers') :=
    _get_incoming_orders ledgers (chain_id supply_chain) (role node) week in
  let inventory1 := inventory node + sum_quantities incoming in
  let demand := incoming_order node in
  let fulfilled := Z.min inventory1 demand in
  let inventory2 := inventory1 - fulfilled in
  let backorder2 :=
    if fulfilled <? demand then backorder node + (demand - fulfilled) else 0 in
  let holding_cost :=
    calculate_inventory_cost inventory2 (holding_cost_per_unit BEER_GAME_CONFIG) in
  let stockout_cost :=
    calculate_backorder_cost backorder2 (stockout_cost_per_unit BEER_GAME_CONFIG) in
  ({| role := role node; player_id := player_id node;
      player_name := player_name node;
      inventory := inventory2;
      backorder := backorder2;
      current_order := current_order node;
      incoming_order := incoming_order node;
      total_cost := (total_cost node + (holding_cost + stockout_cost))%Q;
      orders_history := orders_history node ++ [current_order node];
      inventory_history := inventory_history node ++ [inventory2] |},
   ledgers').

(** One turn of the loop [for node in supply_chain.get_nodes()]: the node
    held by a slot, when present, is processed and stays in its slot. *)
Definition process_slot (week : Z)
    (slot : SupplyChain -> option SupplyChainNode)
    (store : SupplyChain -> option SupplyChainNode -> SupplyChain)
    (st : SupplyChain * gmap string (list Order))
  : SupplyChain * gmap string (list Order) :=
  match slot st.1 with
  | None => st
  | Some node =>
    let '(node', ledgers') := _process_node_week st.2 st.1 node week in
    (store st.1 (Some node'), ledgers')
  end.

(** The whole loop, in the order of [get_nodes]. *)
Definition process_nodes (week : Z) (st : SupplyChain * gmap string (list Order))
  : SupplyChain * gmap string (list Order) :=
  process_slot week factory with_factory
    (process_slot week wholesaler with_wholesaler
       (process_slot week retailer with_retailer
          (process_slot week shop with_shop st))).

(** [_process_supply_chain_week]. The second argument is annotated [int] in
    the source but is formatted as whatever value the caller passes. *)
Definition _process_supply_chain_week (self : BeerGameEngine)
    (gid : string) (chain_index : py_value) (week : Z) : BeerGameEngine :=
  let cid := gid +:+ "_chain_" +:+ py_format chain_index in
  match engine_supply_chains self !! cid with
  | None => self
  | Some supply_chain =>
    let '(supply_chain', ledgers') :=
      process_nodes week (with_current_week supply_chain week, orders self) in
    {| games := games self;
       engine_supply_chains := <[cid := supply_chain']> (engine_supply_chains self);
       orders := ledgers';
       order_queue := order_queue self |}
  end.

Definition next_week (g : Game) : Game :=
  {| game_id := game_id g; num_chains := num_chains g; weeks := weeks g;
     demand_pattern := demand_pattern g;
     game_current_week := game_current_week g + 1;
     game_status := game_status g; supply_chains := supply_chains g |}.

(** [advance_week]: each element of [game["supply_chains"]] (a full chain
    id, a string) is handed to [_process_supply_chain_week]. *)
Definition advance_week (self : BeerGameEngine) (gid : string) : bool * BeerGameEngine :=
  match games self !! gid with
  | None => (false, self)
  | Some game =>
    let game' := next_week game in
    let self1 := with_games self (<[gid := game']> (games self)) in
    (true,
     foldl (fun e cid =>
              _process_supply_chain_week e gid (py_str cid) (game_current_week game'))
           self1 (supply_chains game'))
  end.

(** ** Concrete runs *)

Definition uuid_a : string := "3f2a9c1e-7b4d-4e8a-9c0f-1a2b3c4d5e6f".
Definition uuid_b : string := "a1b2c3d4-0000-4000-8000-000000000001".
Definition uuid_c : string := "0badcafe-1111-4111-8111-111111111111".
Definition uuid_d : string := "deadbeef-2222-4222-8222-222222222222".

(** A Shop node as [join_game] builds it, with a customer order placed. *)
Definition shop_node (demand : Z) : SupplyChainNode :=
  with_incoming_order (new_node "Shop" "player_a1b2c3d4" "Ann" 100) demand.

Definition lone_chain : SupplyChain := new_SupplyChain "game_3f2a9c1e_chain_0" "game_3f2a9c1e".

(** [k] weekly steps of one node of a chain whose ledger is empty, the
    customer order being set to [demand] before each step. *)
Fixpoint shop_weeks (demand : Z) (k : nat) (n : SupplyChainNode) : SupplyChainNode :=
  match k with
  | O => n
  | S k' =>
    let n' := shop_weeks demand k' n in
    (_process_node_week ∅ lone_chain (with_incoming_order n' demand)
       (Z.of_nat k)).1
  end.

(** ** Engine runs used as test inputs *)

Definition demo_gid : string := "game_3f2a9c1e".
Definition demo_cid : string := "game_3f2a9c1e_chain_0".

Definition advance_weeks (k : nat) (self : BeerGameEngine) (gid : string)
  : BeerGameEngine :=
  Nat.iter k (fun e => (advance_week e gid).2) self.

(** [create_game(1)], a Shop joins, the customer asks for 30. *)
Definition engine_created : BeerGameEngine :=
  (create_game uuid_a new_engine 1 52 "sine_wave").2.
Definition engine_shop : BeerGameEngine :=
  (join_game uuid_b engine_created demo_gid "chain_0" "Shop" "Ann").2.
Definition engine_demand : BeerGameEngine :=
  (place_customer_order engine_shop demo_gid "chain_0" 1 30).2.

(** The same engine after the chain step of week 1, called with the chain
    index: the Shop has served the 30 units. *)
Definition engine_stepped : BeerGameEngine :=
  _process_supply_chain_week engine_demand demo_gid (py_int 0) 1.
Definition stepped_shop : SupplyChainNode :=
  (_process_node_week ∅ lone_chain (shop_node 30) 1).1.
Definition stepped_chain : SupplyChain :=
  with_current_week (with_shop lone_chain (Some stepped_shop)) 1.

(** [create_game(1)], a Retailer and a Wholesaler join, three weeks pass, the
    Retailer orders 50 from the Wholesaler, four more weeks pass. *)
Definition engine_pair : BeerGameEngine :=
  (join_game uuid_c
     (join_game uuid_b engine_created demo_gid "chain_0" "Retailer" "Rob").2
     demo_gid "chain_0" "Wholesaler" "Wes").2.
Definition engine_week3 : BeerGameEngine := advance_weeks 3 engine_pair demo_gid.
Definition engine_ordered : BeerGameEngine :=
  (process_order uuid_d engine_week3 demo_gid "chain_0" "Retailer" "Wholesaler" 50).2.
Definition engine_week7 : BeerGameEngine := advance_weeks 4 engine_ordered demo_gid.

(** The order the Retailer placed, as [process_order] builds it. *)
Definition demo_order : Order :=
  {| order_id := "order_deadbeef"; from_role := "Retailer"; to_role := "Wholesaler";
     supply_chain_id := demo_cid; order_game_id := demo_gid; quantity := 50;
     status := PENDING; created_week := 0; delivery_week := 4;
     actual_delivery_week := None |}.

(** ** Engine states a caller can build

    The states built from a fresh engine by the five public methods, to
    which the chain step [_process_supply_chain_week] is added as a sixth
    move, with any index: the invariants below then also cover chains whose
    nodes have really been processed. *)

(** The text of [str(uuid4())] is 36 characters long. *)
Definition is_uuid (s : string) : Prop := String.length s = 36%nat.

Inductive reachable : BeerGameEngine -> Prop :=
  | reach_init : reachable new_engine
  | reach_create uuid e n w p :
      is_uuid uuid -> reachable e -> reachable (create_game uuid e n w p).2
  | reach_join uuid e g c r name :
      is_uuid uuid -> reachable e -> reachable (join_game uuid e g c r name).2
  | reach_customer e g c w q :
      reachable e -> reachable (place_customer_order e g c w q).2
  | reach_order uuid e g c rf rt q :
      is_uuid uuid -> reachable e -> reachable (process_order uuid e g c rf rt q).2
  | reach_advance e g :
      reachable e -> reachable (advance_week e g).2
  | reach_chain_week e g chain_index w :
      reachable e -> reachable (_process_supply_chain_week e g chain_index w).

(** ** Invariants *)

Definition node_nonneg (n : SupplyChainNode) : Prop :=
  0 <= inventory n /\ 0 <= backorder n.

Definition slot_nonneg (o : option SupplyChainNode) : Prop :=
  match o with
  | Some n => node_nonneg n
  | None => True
  end.

Definition chain_nonneg (sc : SupplyChain) : Prop :=
  slot_nonneg (shop sc) /\ slot_nonneg (retailer sc)
  /\ slot_nonneg (wholesaler sc) /\ slot_nonneg (factory sc).

Definition engine_nonneg (e : BeerGameEngine) : Prop :=
  forall k sc, engine_supply_chains e !! k = Some sc -> chain_nonneg sc.

(** Shape of the identifiers [create_game] hands out. *)
Definition is_game_id (g : string) : Prop :=
  exists u, g = "game_" +:+ u /\ String.length u = 8%nat.

Definition is_chain_id_of (g cid : string) : Prop :=
  exists i : nat, cid = g +:+ "_chain_" +:+ pretty (Z.of_nat i).

Definition ids_wf (e : BeerGameEngine) : Prop :=
  (forall g game, games e !! g = Some game ->
     is_game_id g /\ Forall (is_chain_id_of g) (supply_chains game))
  /\ (forall k sc, engine_supply_chains e !! k = Some sc ->
        exists g, is_game_id g /\ is_chain_id_of g k).

(** ** Observables of one weekly step

    The quantities the step computes on the way and does not store. *)

(** Sum of the quantities arriving for the node this week. *)
Definition week_arrivals (ledgers : gmap string (list Order))
    (supply_chain : SupplyChain) (node : SupplyChainNode) (week : Z) : Z :=
  sum_quantities
    (_get_incoming_orders ledgers (chain_id supply_chain) (role node) week).1.

(** The local [fulfilled] of [_process_node_week]. *)
Definition week_fulfilled (ledgers : gmap string (list Order))
    (supply_chain : SupplyChain) (node : SupplyChainNode) (week : Z) : Z :=
  Z.min (inventory node + week_arrivals ledgers supply_chain node week)
        (incoming_order node).

(** What the step adds to [total_cost]. *)
Definition week_cost (ledgers : gmap string (list Order))
    (supply_chain : SupplyChain) (node : SupplyChainNode) (week : Z) : Q :=
  (total_cost (_process_node_week ledgers supply_chain node week).1
   - total_cost node)%Q.

(** The Shop node of the five-week scenario, before the first week. *)
Definition scenario_shop : SupplyChainNode :=
  new_node "Shop" "player_a1b2c3d4" "Ann" (initial_inventory BEER_GAME_CONFIG).

(** A node caught short: nothing on hand, 20 units already owed. *)
Definition short_node : SupplyChainNode :=
  {| role := "Shop"; player_id := "player_a1b2c3d4"; player_name := "Ann";
     inventory := 0; backorder := 20; current_order := 0; incoming_order := 30;
     total_cost := 60; orders_history := [0; 0; 0; 0];
     inventory_history := [70; 40; 10; 0] |}.

(** A node with 10 units on hand, nothing owed, asked for 30. *)
Definition low_node : SupplyChainNode :=
  {| role := "Shop"; player_id := "player_a1b2c3d4"; player_name := "Ann";
     inventory := 10; backorder := 0; current_order := 0; incoming_order := 30;
     total_cost := 60; orders_history := [0; 0; 0];
     inventory_history := [70; 40; 10] |}.

(** ** More of backend/core/utils.py *)

(** Python's two-argument [min] and [max] on numbers: the first argument is
    kept unless the second is strictly smaller (resp. greater). *)
Definition py_min (a b : Q) : Q :=
  match (b ?= a)%Q with Lt => b | _ => a end.

Definition py_max (a b : Q) : Q :=
  match (b ?= a)%Q with Gt => b | _ => a end.

(** [clamp(value, min_val, max_val)], on finite numbers. *)
Definition clamp (value min_val max_val : Q) : Q :=
  py_max min_val (py_min max_val value).

(** [calculate_demand]. The two branches that leave exact arithmetic are fed
    from outside: [sine_term] stands for
    [int(amplitude * math.sin(week * 0.1) + offset)] and [drawn] for the
    number [random.randint] returns. *)
Definition calculate_demand (sine_term drawn : Z)
    (pattern : string) (week amplitude offset : Z) : Z :=
  if decide (pattern = "sine_wave") then sine_term
  else if decide (pattern = "step") then
    (if decide ((week `div` 10) `mod` 2 = 0) then amplitude else offset)
  else if decide (pattern = "random") then drawn
  else if decide (pattern = "constant") then offset
  else offset.

(** ** More of backend/models/orders.py *)

#[global] Instance OrderStatus_eq_dec : EqDecision OrderStatus.
Proof. solve_decision. Defined.

(** [Order.is_delayed]; [actual_delivery_week or 0] reads a missing week
    as 0. *)
Definition is_delayed (self : Order) (week : Z) : bool :=
  if decide (status self = DELIVERED)
  then default 0 (actual_delivery_week self) >? delivery_week self
  else (week >? delivery_week self)
       && negb (bool_decide (status self = DELIVERED)).

(** ** More of backend/models/supply_chain.py *)

(** The dictionary built by [SupplyChain.to_dict], without its time stamp;
    the four role entries are node dictionaries or [None]. *)
Record SupplyChainDict := {
  dict_chain_id : string;
  dict_game_id : string;
  dict_shop : option SupplyChainNode;
  dict_retailer : option SupplyChainNode;
  dict_wholesaler : option SupplyChainNode;
  dict_factory : option SupplyChainNode;
  dict_current_week : Z;
  dict_total_cost : Q;
}.

Definition chain_to_dict (self : SupplyChain) : SupplyChainDict := {|
  dict_chain_id := chain_id self;
  dict_game_id := chain_game_id self;
  dict_shop := to_dict <$> shop self;
  dict_retailer := to_dict <$> retailer self;
  dict_wholesaler := to_dict <$> wholesaler self;
  dict_factory := to_dict <$> factory self;
  dict_current_week := current_week self;
  dict_total_cost := calculate_total_cost self;
|}.

(** ** More of backend/core/game_engine.py *)

(** The dictionary returned by [get_game_state]. *)
Record GameState := {
  state_game_id : string;
  state_status : string;
  state_current_week : Z;
  state_weeks : Z;
  state_demand_pattern : string;
  state_supply_chains : list SupplyChainDict;
}.

(** The loop of [get_game_state]: [self.supply_chains[chain_id]] raises
    [KeyError] at the first listed chain that is not stored. *)
Fixpoint chain_dicts (chains : gmap string SupplyChain) (l : list string)
  : outcome (list SupplyChainDict) :=
  match l with
  | [] => Return []
  | cid :: l' =>
    match chains !! cid with
    | None => Raise (KeyError cid)
    | Some supply_chain =>
      match chain_dicts chains l' with
      | Return ds => Return (chain_to_dict supply_chain :: ds)
      | Raise exc => Raise exc
      end
    end
  end.

Definition get_game_state (self : BeerGameEngine) (gid : string)
  : outcome (option GameState) :=
  match games self !! gid with
  | None => Return None
  | Some game =>
    match chain_dicts (engine_supply_chains self) (supply_chains game) with
    | Raise exc => Raise exc
    | Return chains =>
      Return (Some {| state_game_id := game_id game;
                      state_status := game_status game;
                      state_current_week := game_current_week game;
                      state_weeks := weeks game;
                      state_demand_pattern := demand_pattern game;
                      state_supply_chains := chains |})
    end
  end.

(** ** Further invariants of the engine *)

(** Every stored chain has a ledger. *)
Definition ledgers_present (e : BeerGameEngine) : Prop :=
  forall k, is_Some (engine_supply_chains e !! k) -> is_Some (orders e !! k).

(** Every chain a game lists is stored. *)
Definition chains_listed (e : BeerGameEngine) : Prop :=
  forall g game, games e !! g = Some game ->
    Forall (fun cid => is_Some (engine_supply_chains e !! cid)) (supply_chains game).

(** The names of the chains [create_game] makes for [n] chains. *)
Definition chain_names (gid : string) (n : Z) : list string :=
  (fun i : nat => gid +:+ "_chain_" +:+ pretty (Z.of_nat i)) <$> py_range n.

(** Sum of the stored costs of a list of nodes. *)
Definition sum_costs (nodes : list SupplyChainNode) : Q :=
  foldr (fun node acc => (total_cost node + acc)%Q) 0%Q nodes.

(** The node in slot [r] of the chain stored under [k], if any. *)
Definition node_at (e : BeerGameEngine) (k r : string) : option SupplyChainNode :=
  engine_supply_chains e !! k ≫= fun sc => get_node sc r.

(** ** Proof automation *)

(** One slot of the node loop: [step_ok] says the processed node satisfies
    the invariant again; the three other slots are untouched. *)
Ltac slot_step slot step_ok :=
  let Hs := fresh "Hs" in let Hr := fresh "Hr" in
  let Hw := fresh "Hw" in let Hf := fresh "Hf" in
  let E := fresh "E" in let Hn := fresh "Hn" in
  intros (Hs & Hr & Hw & Hf); unfold process_slot;
  match goal with
  | st : (SupplyChain * gmap string (list Order))%type |- _ =>
      destruct (slot st.1) as [node|] eqn:E;
      [ match goal with
        | |- context [_process_node_week ?l ?sc ?n ?w] =>
            pose proof (step_ok l sc n w) as Hn;
            destruct (_process_node_week l sc n w) as [node' l']
        end;
        repeat split; simpl; try assumption; apply Hn; assumption
      | repeat split; try assumption; rewrite E; exact I ]
  end.

(** ** The weekly step, field by field *)

Section node_week.
Variable ledgers : gmap string (list Order).
Variable supply_chain : SupplyChain.
Variable node : SupplyChainNode.
Variable week : Z.

Abbreviation node' := (_process_node_week ledgers supply_chain node week).1.
Abbreviation arrived := (week_arrivals ledgers supply_chain node week).
Abbreviation demand := (incoming_order node).
Abbreviation fulfilled := (week_fulfilled ledgers supply_chain node week).

Lemma node_week_inventory : inventory node' = inventory node + arrived - fulfilled.
Proof.
  unfold week_fulfilled, week_arrivals, _process_node_week.
  destruct (_get_incoming_orders _ _ _ _) as [inc l']. reflexivity.
Qed.

Lemma node_week_backorder :
  backorder node' =
  if fulfilled <? demand then backorder node + (demand - fulfilled) else 0.
Proof.
  unfold week_fulfilled, week_arrivals, _process_node_week.
  destruct (_get_incoming_orders _ _ _ _) as [inc l']. reflexivity.
Qed.

Lemma node_week_total_cost :
  total_cost node' =
  (total_cost node
   + (calculate_inventory_cost (inventory node')
        (holding_cost_per_unit BEER_GAME_CONFIG)
      + calculate_backorder_cost (backorder node')
          (stockout_cost_per_unit BEER_GAME_CONFIG)))%Q.
Proof.
  unfold _process_node_week.
  destruct (_get_incoming_orders _ _ _ _) as [inc l']. reflexivity.
Qed.

Lemma node_week_orders_history :
  orders_history node' = orders_history node ++ [current_order node].
Proof.
  unfold _process_node_week.
  destruct (_get_incoming_orders _ _ _ _) as [inc l']. reflexivity.
Qed.

Lemma node_week_inventory_history :
  inventory_history node' = inventory_history node ++ [inventory node'].
Proof.
  unfold _process_node_week.
  destruct (_get_incoming_orders _ _ _ _) as [inc l']. reflexivity.
Qed.

Lemma node_week_identity :
  role node' = role node /\ player_id node' = player_id node
  /\ player_name node' = player_name node
  /\ current_order node' = current_order node
  /\ incoming_order node' = incoming_order node.
Proof.
  unfold _process_node_week.
  destruct (_get_incoming_orders _ _ _ _) as [inc l']. repeat split.
Qed.

(** Whatever arrives and whatever is asked, the step leaves no negative
    stock: [inventory - min(inventory, demand)] is [max(0, inventory - demand)]. *)
Lemma node_week_inventory_nonneg : 0 <= inventory node'.
Proof. rewrite node_week_inventory. unfold week_fulfilled. lia. Qed.

Lemma node_week_backorder_nonneg : 0 <= backorder node -> 0 <= backorder node'.
Proof.
  intros Hb. rewrite node_week_backorder.
  destruct (fulfilled <? demand) eqn:E; [apply Z.ltb_lt in E; lia | lia].
Qed.

(** With nothing negative owed beforehand the stockout charge of the step is
    nil, because [calculate_backorder_cost] negates the quantity it is given. *)
Lemma node_week_stockout_cost_nil :
  0 <= backorder node ->
  (calculate_backorder_cost (backorder node')
     (stockout_cost_per_unit BEER_GAME_CONFIG) == 0)%Q.
Proof.
  intros Hb. pose proof (node_week_backorder_nonneg Hb) as Hb'.
  unfold calculate_backorder_cost.
  replace (Z.max 0 (- backorder node')) with 0 by lia.
  reflexivity.
Qed.

(** So the week costs the holding charge and nothing more. *)
Lemma node_week_cost_is_holding_only :
  0 <= backorder node ->
  (week_cost ledgers supply_chain node week
   == inject_Z (Z.max 0 (inventory node')) * (1 # 2))%Q.
Proof.
  intros Hb. unfold week_cost. rewrite node_week_total_cost.
  rewrite (node_week_stockout_cost_nil Hb).
  unfold calculate_inventory_cost. simpl holding_cost_per_unit. ring.
Qed.
End node_week.

(** ** The five-week Shop scenario *)

(** C2, as the code runs it: a Shop with 100 units asked for 30 in each of
    five weeks, nothing arriving. Weeks 1 to 3 leave inventory 70, 40, 10 and
    add 35, 20, 5 to the cost (60 in all); week 4 fulfils 10, empties the
    stock and records a backorder of 20; week 5 fulfils nothing and raises
    the backorder to 50, the 30 unmet units being added to the 20 already
    owed. *)
Theorem shop_scenario_five_weeks :
  let w (k : nat) := shop_weeks 30 k scenario_shop in
  (inventory (w 1%nat) = 70 /\ (total_cost (w 1%nat) == 35)%Q)
  /\ (inventory (w 2%nat) = 40 /\ (total_cost (w 2%nat) - total_cost (w 1%nat) == 20)%Q)
  /\ (inventory (w 3%nat) = 10 /\ (total_cost (w 3%nat) - total_cost (w 2%nat) == 5)%Q)
  /\ (total_cost (w 3%nat) == 60)%Q
  /\ (week_fulfilled ∅ lone_chain (with_incoming_order (w 3%nat) 30) 4 = 10
      /\ inventory (w 4%nat) = 0 /\ backorder (w 4%nat) = 20)
  /\ (week_fulfilled ∅ lone_chain (with_incoming_order (w 4%nat) 30) 5 = 0
      /\ inventory (w 5%nat) = 0 /\ backorder (w 5%nat) = 50).
Proof.
  cbv zeta. repeat split; vm_compute; reflexivity.
Qed.

(** C2 is not what the code computes: after the fifth week the backorder is
    50, not 30, and the cumulative cost is 60, not 160. *)
Lemma shop_scenario_not_as_claimed :
  let n5 := shop_weeks 30 5 scenario_shop in
  backorder n5 <> 30 /\ ~ (total_cost n5 == 160)%Q.
Proof.
  cbv zeta. split.
  - vm_compute. discriminate.
  - intros H. vm_compute in H. discriminate.
Qed.

(** ** Backorder *)

(** C3, as the code runs it: when the demand is not met in full the shortfall
    [demand - fulfilled] is added to the backorder already recorded; when it
    is met in full the backorder is reset to 0. The new backorder therefore
    is the carried amount plus [max(0, demand - fulfilled)]. *)
Theorem backorder_accumulates_on_shortfall
    (ledgers : gmap string (list Order)) (supply_chain : SupplyChain)
    (node : SupplyChainNode) (week : Z) :
  let demand := incoming_order node in
  let fulfilled := week_fulfilled ledgers supply_chain node week in
  backorder (_process_node_week ledgers supply_chain node week).1 =
  (if fulfilled <? demand then backorder node else 0)
  + Z.max 0 (demand - fulfilled).
Proof.
  cbv zeta. rewrite node_week_backorder.
  destruct (_ <? _) eqn:E; [apply Z.ltb_lt in E | apply Z.ltb_ge in E]; lia.
Qed.

(** C3 fails as stated: a node owing 20 with no stock and a demand of 30
    fulfils nothing and ends the week owing 50, not [max(0, 30 - 0) = 30]. *)
Lemma backorder_not_replaced :
  let demand := incoming_order short_node in
  let fulfilled := week_fulfilled ∅ lone_chain short_node 5 in
  backorder (_process_node_week ∅ lone_chain short_node 5).1 = 50
  /\ Z.max 0 (demand - fulfilled) = 30
  /\ backorder (_process_node_week ∅ lone_chain short_node 5).1
     <> Z.max 0 (demand - fulfilled).
Proof.
  cbv zeta. repeat split; vm_compute; discriminate.
Qed.

(** ** Cost *)

(** C4 at the failing input: a node with 10 units asked for 30 ends the week
    with no stock and a backorder of 20; the week adds nothing to its cost,
    where [max(0, 0) * 0.5 + max(0, 20) * 2.0 = 40] is due. *)
Theorem stockout_cost_not_charged :
  let node' := (_process_node_week ∅ lone_chain low_node 4).1 in
  inventory node' = 0 /\ backorder node' = 20
  /\ (week_cost ∅ lone_chain low_node 4 == 0)%Q
  /\ ~ (week_cost ∅ lone_chain low_node 4
        == inject_Z (Z.max 0 (inventory node')) * (1 # 2)
           + inject_Z (Z.max 0 (backorder node')) * (2 # 1))%Q.
Proof.
  cbv zeta. repeat split; try (vm_compute; reflexivity).
  intros H. vm_compute in H. discriminate.
Qed.

(** ** History *)

Lemma last_entries_length {A} (n : nat) (l : list A) :
  length (last_entries n l) = Nat.min n (length l).
Proof. unfold last_entries. rewrite length_drop. lia. Qed.

Lemma last_entries_suffix {A} (n : nat) (l : list A) :
  last_entries n l `suffix_of` l.
Proof. unfold last_entries. apply suffix_drop. Qed.

Lemma shop_weeks_orders_history (demand : Z) (k : nat) (n : SupplyChainNode) :
  length (orders_history (shop_weeks demand k n))
  = (length (orders_history n) + k)%nat.
Proof.
  induction k as [|k IH]; [simpl; lia|].
  cbn [shop_weeks]. rewrite node_week_orders_history, length_app.
  cbn [with_incoming_order orders_history]. rewrite IH. simpl. lia.
Qed.

(** C5, as the code runs it: a weekly step appends one entry to each stored
    history and drops none; the bound is applied when the node is exported:
    [to_dict] shows the last [min(52, length)] entries of each history, the
    oldest ones being the ones left out. *)
Theorem history_bounded_in_to_dict
    (ledgers : gmap string (list Order)) (supply_chain : SupplyChain)
    (node : SupplyChainNode) (week : Z) :
  let node' := (_process_node_week ledgers supply_chain node week).1 in
  (orders_history node' = orders_history node ++ [current_order node]
   /\ inventory_history node' = inventory_history node ++ [inventory node'])
  /\ (length (orders_history (to_dict node'))
       = Nat.min 52 (length (orders_history node'))
      /\ length (inventory_history (to_dict node'))
         = Nat.min 52 (length (inventory_history node')))
  /\ (orders_history (to_dict node') `suffix_of` orders_history node'
      /\ inventory_history (to_dict node') `suffix_of` inventory_history node').
Proof.
  cbv zeta. split; [|split].
  - split; [apply node_week_orders_history | apply node_week_inventory_history].
  - split; apply last_entries_length.
  - split; apply last_entries_suffix.
Qed.

(** C5 fails on the stored histories: after 53 weekly steps the node holds 53
    entries in each history. *)
Lemma history_exceeds_52 :
  let n53 := shop_weeks 30 53 scenario_shop in
  length (orders_history n53) = 53%nat
  /\ length (inventory_history n53) = 53%nat
  /\ ~ (length (orders_history n53) <= 52)%nat
  /\ ~ (length (inventory_history n53) <= 52)%nat.
Proof.
  cbv zeta.
  assert (length (orders_history (shop_weeks 30 53 scenario_shop)) = 53%nat) as Ho
    by (vm_compute; reflexivity).
  assert (length (inventory_history (shop_weeks 30 53 scenario_shop)) = 53%nat) as Hi
    by (vm_compute; reflexivity).
  rewrite Ho, Hi. repeat split; lia.
Qed.

(** ** Customer orders *)

(** C10: [place_customer_order] never consults its [week] argument: two calls
    that differ only in the week return the same boolean and the same
    engine. *)
Theorem place_customer_order_ignores_week
    (self : BeerGameEngine) (gid cid : string) (week1 week2 qty : Z) :
  place_customer_order self gid cid week1 qty
  = place_customer_order self gid cid week2 qty.
Proof. reflexivity. Qed.

(** The call does depend on its other arguments, so the statement above is
    not an artefact of a constant function. *)
Lemma place_customer_order_reads_quantity :
  (place_customer_order engine_shop demo_gid "chain_0" 1 30).1 = true
  /\ (shop <$> engine_supply_chains
               (place_customer_order engine_shop demo_gid "chain_0" 1 30).2 !! demo_cid)
     <> (shop <$> engine_supply_chains
                 (place_customer_order engine_shop demo_gid "chain_0" 1 31).2 !! demo_cid)
  /\ (place_customer_order engine_shop demo_gid "chain_9" 1 30).1 = false.
Proof.
  split; [vm_compute; reflexivity|]. split; [|vm_compute; reflexivity].
  vm_compute. discriminate.
Qed.

(** ** Joining *)

Lemma BEER_GAME_ROLES_eq :
  BEER_GAME_ROLES = ["Shop"; "Retailer"; "Wholesaler"; "Factory"].
Proof. reflexivity. Qed.

(** C9: with a role outside Shop, Retailer, Wholesaler, Factory, [join_game]
    returns no player id and hands back the engine it was given: no slot of
    any chain changes and no node is created. *)
Theorem join_game_rejects_unknown_role
    (uuid : string) (self : BeerGameEngine) (gid supply_chain_id r pname : string) :
  r ∉ ["Shop"; "Retailer"; "Wholesaler"; "Factory"] ->
  join_game uuid self gid supply_chain_id r pname = (None, self).
Proof.
  intros Hr. unfold join_game.
  destruct (games self !! gid); [|reflexivity].
  rewrite BEER_GAME_ROLES_eq. destruct (decide _) as [Hin|]; [|reflexivity].
  contradiction.
Qed.

Lemma join_game_rejects_unknown_role_witness :
  ("Manager" ∉ ["Shop"; "Retailer"; "Wholesaler"; "Factory"])
  /\ join_game uuid_b engine_created demo_gid "chain_0" "Manager" "Ann"
     = (None, engine_created).
Proof.
  assert ("Manager" ∉ ["Shop"; "Retailer"; "Wholesaler"; "Factory"]) as H.
  { intros Hin. repeat (apply elem_of_cons in Hin as [Hin|Hin]; [discriminate|]).
    by apply elem_of_nil in Hin. }
  split; [exact H|].
  apply (join_game_rejects_unknown_role uuid_b engine_created demo_gid
           "chain_0" "Manager" "Ann" H).
Defined.

(** A known role in the same call does create the node. *)
Lemma join_game_accepts_shop :
  (join_game uuid_b engine_created demo_gid "chain_0" "Shop" "Ann").1
  = Some "player_a1b2c3d4"
  /\ (shop <$> engine_supply_chains engine_shop !! demo_cid)
     = Some (Some (new_node "Shop" "player_a1b2c3d4" "Ann" 100)).
Proof. split; vm_compute; reflexivity. Qed.

(** ** Creating games *)

(** C7, as the code runs it: [create_game] does not validate the chain
    count. With [num_chains < 1] the range is empty: the call registers a game
    without chains, creates no supply chain, ledger or queue, and returns the
    new game id. *)
Theorem create_game_without_chains
    (uuid : string) (self : BeerGameEngine) (n_chains n_weeks : Z) (pattern : string) :
  n_chains < 1 ->
  create_game uuid self n_chains n_weeks pattern
  = (generate_game_id uuid,
     with_games self
       (<[generate_game_id uuid :=
            empty_game (generate_game_id uuid) n_chains n_weeks pattern]>
          (games self))).
Proof.
  intros Hn. unfold create_game, py_range.
  replace (Z.to_nat n_chains) with 0%nat by lia. reflexivity.
Qed.

Lemma create_game_without_chains_witness :
  -2 < 1
  /\ create_game uuid_a new_engine (-2) 52 "sine_wave"
     = (generate_game_id uuid_a,
        with_games new_engine
          (<[generate_game_id uuid_a :=
               empty_game (generate_game_id uuid_a) (-2) 52 "sine_wave"]>
             (games new_engine))).
Proof.
  split; [lia|].
  apply (create_game_without_chains uuid_a new_engine (-2) 52 "sine_wave"). lia.
Defined.

(** C7 fails as stated: [create_game(0)] returns a game id and the game is
    registered, with no chain. *)
Lemma create_game_zero_chains_succeeds :
  (create_game uuid_a new_engine 0 52 "sine_wave").1 = "game_3f2a9c1e"
  /\ games (create_game uuid_a new_engine 0 52 "sine_wave").2 !! "game_3f2a9c1e"
     = Some (empty_game "game_3f2a9c1e" 0 52 "sine_wave")
  /\ engine_supply_chains (create_game uuid_a new_engine 0 52 "sine_wave").2 = ∅.
Proof. repeat split; vm_compute; reflexivity. Qed.


(** ** Stock and backorder never go negative *)

Lemma elem_of_get_nodes (sc : SupplyChain) (n : SupplyChainNode) :
  n ∈ get_nodes sc <->
  shop sc = Some n \/ retailer sc = Some n
  \/ wholesaler sc = Some n \/ factory sc = Some n.
Proof.
  unfold get_nodes, slots. rewrite list_elem_of_omap. split.
  - intros (o & Ho & Hn). simpl in Hn. subst o.
    repeat (apply elem_of_cons in Ho as [Ho|Ho]; [auto|]).
    by apply elem_of_nil in Ho.
  - intros H. exists (Some n). split; [|reflexivity].
    destruct H as [<-|[<-|[<-|<-]]]; repeat constructor.
Qed.

Lemma chain_nonneg_nodes (sc : SupplyChain) (n : SupplyChainNode) :
  chain_nonneg sc -> n ∈ get_nodes sc -> node_nonneg n.
Proof.
  intros (Hs & Hr & Hw & Hf) Hn. apply elem_of_get_nodes in Hn.
  destruct Hn as [E|[E|[E|E]]];
    [rewrite E in Hs|rewrite E in Hr|rewrite E in Hw|rewrite E in Hf]; assumption.
Qed.

Lemma new_SupplyChain_nonneg (cid gid : string) : chain_nonneg (new_SupplyChain cid gid).
Proof. repeat split. Qed.

Lemma new_node_nonneg (r pid pname : string) :
  node_nonneg (new_node r pid pname (initial_inventory BEER_GAME_CONFIG)).
Proof. split; simpl; lia. Qed.

Lemma set_node_nonneg (sc : SupplyChain) (r : string) (n : SupplyChainNode) :
  chain_nonneg sc -> node_nonneg n -> chain_nonneg (set_node sc r n).
Proof.
  intros (Hs & Hr & Hw & Hf) Hn. unfold set_node.
  repeat case_decide; repeat split; simpl; try assumption; apply Hn.
Qed.

Lemma get_node_nonneg (sc : SupplyChain) (r : string) (n : SupplyChainNode) :
  chain_nonneg sc -> get_node sc r = Some n -> node_nonneg n.
Proof.
  intros (Hs & Hr & Hw & Hf). unfold get_node.
  repeat case_decide; intros E;
    [rewrite E in Hs|rewrite E in Hr|rewrite E in Hw|rewrite E in Hf|discriminate];
    assumption.
Qed.

Lemma process_node_week_nonneg (ledgers : gmap string (list Order))
    (sc : SupplyChain) (n : SupplyChainNode) (week : Z) :
  node_nonneg n -> node_nonneg (_process_node_week ledgers sc n week).1.
Proof.
  intros [_ Hb]. split.
  - apply node_week_inventory_nonneg.
  - by apply node_week_backorder_nonneg.
Qed.

Lemma process_slot_shop_nonneg (week : Z) (st : SupplyChain * gmap string (list Order)) :
  chain_nonneg st.1 -> chain_nonneg (process_slot week shop with_shop st).1.
Proof. slot_step shop process_node_week_nonneg. Qed.

Lemma process_slot_retailer_nonneg (week : Z) (st : SupplyChain * gmap string (list Order)) :
  chain_nonneg st.1 -> chain_nonneg (process_slot week retailer with_retailer st).1.
Proof. slot_step retailer process_node_week_nonneg. Qed.

Lemma process_slot_wholesaler_nonneg (week : Z) (st : SupplyChain * gmap string (list Order)) :
  chain_nonneg st.1 -> chain_nonneg (process_slot week wholesaler with_wholesaler st).1.
Proof. slot_step wholesaler process_node_week_nonneg. Qed.

Lemma process_slot_factory_nonneg (week : Z) (st : SupplyChain * gmap string (list Order)) :
  chain_nonneg st.1 -> chain_nonneg (process_slot week factory with_factory st).1.
Proof. slot_step factory process_node_week_nonneg. Qed.

Lemma process_nodes_nonneg (week : Z) (st : SupplyChain * gmap string (list Order)) :
  chain_nonneg st.1 -> chain_nonneg (process_nodes week st).1.
Proof.
  intros H. unfold process_nodes.
  apply process_slot_factory_nonneg, process_slot_wholesaler_nonneg,
    process_slot_retailer_nonneg, process_slot_shop_nonneg, H.
Qed.

(** The step of one chain keeps the invariant whatever index or id it is
    called with, in particular when the lookup succeeds and the nodes are
    processed. *)
Lemma process_supply_chain_week_nonneg (self : BeerGameEngine)
    (gid : string) (chain_index : py_value) (week : Z) :
  engine_nonneg self ->
  engine_nonneg (_process_supply_chain_week self gid chain_index week).
Proof.
  intros H. unfold _process_supply_chain_week.
  destruct (engine_supply_chains self !! _) as [sc|] eqn:E; [|exact H].
  pose proof (process_nodes_nonneg week (with_current_week sc week, orders self)) as Hp.
  destruct (process_nodes _ _) as [sc' l'].
  intros k c. simpl. rewrite lookup_insert_Some.
  intros [[_ <-]|[_ Hk]]; [|by eapply H].
  apply Hp. simpl. apply (H _ _ E).
Qed.

Lemma advance_week_nonneg (self : BeerGameEngine) (gid : string) :
  engine_nonneg self -> engine_nonneg (advance_week self gid).2.
Proof.
  intros H. unfold advance_week.
  destruct (games self !! gid) as [game|]; [|exact H]. simpl.
  generalize (game_current_week game + 1).
  assert (engine_nonneg (with_games self (<[gid:=next_week game]> (games self)))) as H1
    by exact H.
  revert H1. generalize (with_games self (<[gid:=next_week game]> (games self))).
  induction (supply_chains game) as [|cid l IH]; intros e He w; [exact He|].
  simpl. apply IH. by apply process_supply_chain_week_nonneg.
Qed.

Lemma create_chains_nonneg (gid : string) (l : list nat) (e : BeerGameEngine) :
  engine_nonneg e -> engine_nonneg (foldl (create_chain gid) e l).
Proof.
  revert e. induction l as [|i l IH]; intros e He; [exact He|].
  simpl. apply IH. intros k sc. unfold create_chain. simpl.
  rewrite lookup_insert_Some.
  intros [[_ <-]|[_ Hk]]; [apply new_SupplyChain_nonneg | by eapply He].
Qed.

Lemma create_game_nonneg (uuid : string) (self : BeerGameEngine)
    (n w : Z) (p : string) :
  engine_nonneg self -> engine_nonneg (create_game uuid self n w p).2.
Proof.
  intros H. unfold create_game. simpl. apply create_chains_nonneg. exact H.
Qed.

Lemma join_game_nonneg (uuid : string) (self : BeerGameEngine)
    (gid c r pname : string) :
  engine_nonneg self -> engine_nonneg (join_game uuid self gid c r pname).2.
Proof.
  intros H. unfold join_game.
  destruct (games self !! gid); [|exact H].
  case_decide; [|exact H].
  destruct (engine_supply_chains self !! _) as [sc|] eqn:E; [|exact H].
  intros k sc'. simpl. rewrite lookup_insert_Some.
  intros [[_ <-]|[_ Hk]]; [|by eapply H].
  apply set_node_nonneg; [apply (H _ _ E) | apply new_node_nonneg].
Qed.

Lemma place_customer_order_nonneg (self : BeerGameEngine)
    (gid c : string) (week qty : Z) :
  engine_nonneg self -> engine_nonneg (place_customer_order self gid c week qty).2.
Proof.
  intros H. unfold place_customer_order.
  destruct (engine_supply_chains self !! _) as [sc|] eqn:E; [|exact H].
  destruct (shop sc) as [s|] eqn:Es; [|exact H].
  intros k sc'. simpl. rewrite lookup_insert_Some.
  intros [[_ <-]|[_ Hk]]; [|by eapply H].
  destruct (H _ _ E) as (Hs & Hr & Hw & Hf). rewrite Es in Hs.
  repeat split; simpl; try assumption; apply Hs.
Qed.

Lemma process_order_nonneg (uuid : string) (self : BeerGameEngine)
    (gid c rf rt : string) (qty : Z) :
  engine_nonneg self -> engine_nonneg (process_order uuid self gid c rf rt qty).2.
Proof.
  intros H. unfold process_order.
  destruct (engine_supply_chains self !! _) as [sc|] eqn:E; [|exact H].
  destruct (get_node sc rf) as [nf|] eqn:Ef; [|exact H].
  destruct (get_node sc rt) as [nt|]; [|exact H].
  destruct (orders self !! _); [|exact H].
  intros k sc'. simpl. rewrite lookup_insert_Some.
  intros [[_ <-]|[_ Hk]]; [|by eapply H].
  apply set_node_nonneg; [apply (H _ _ E)|].
  destruct (get_node_nonneg sc rf nf (H _ _ E) Ef). split; assumption.
Qed.

Lemma reachable_nonneg (e : BeerGameEngine) : reachable e -> engine_nonneg e.
Proof.
  induction 1.
  - intros k sc. simpl. by rewrite lookup_empty.
  - by apply create_game_nonneg.
  - by apply join_game_nonneg.
  - by apply place_customer_order_nonneg.
  - by apply process_order_nonneg.
  - by apply advance_week_nonneg.
  - by apply process_supply_chain_week_nonneg.
Qed.

(** C8: in every engine state the calls of the interface can build, after
    [advance_week] every node of every chain has [inventory >= 0] and
    [backorder >= 0]. The order quantities and demands need not even be
    non-negative: the step computes [inventory - min(inventory, demand)] and
    only ever adds a positive shortfall to the backorder. *)
Theorem advance_week_inventory_backorder_nonneg
    (self : BeerGameEngine) (gid cid : string) (sc : SupplyChain)
    (node : SupplyChainNode) :
  reachable self ->
  engine_supply_chains (advance_week self gid).2 !! cid = Some sc ->
  node ∈ get_nodes sc ->
  0 <= inventory node /\ 0 <= backorder node.
Proof.
  intros Hr Hsc Hn.
  apply (chain_nonneg_nodes sc node); [|exact Hn].
  exact (advance_week_nonneg self gid (reachable_nonneg self Hr) cid sc Hsc).
Qed.

Lemma engine_stepped_reachable : reachable engine_stepped.
Proof.
  unfold engine_stepped, engine_demand, engine_shop, engine_created.
  apply reach_chain_week, reach_customer, reach_join; [reflexivity|].
  apply reach_create; [reflexivity|]. apply reach_init.
Qed.

Lemma advance_week_inventory_backorder_nonneg_witness :
  reachable engine_stepped
  /\ engine_supply_chains (advance_week engine_stepped demo_gid).2 !! demo_cid
     = Some stepped_chain
  /\ stepped_shop ∈ get_nodes stepped_chain
  /\ 0 <= inventory stepped_shop /\ 0 <= backorder stepped_shop.
Proof.
  assert (engine_supply_chains (advance_week engine_stepped demo_gid).2 !! demo_cid
          = Some stepped_chain) as Hsc
    by (vm_compute; reflexivity).
  assert (stepped_shop ∈ get_nodes stepped_chain) as Hn
    by (apply elem_of_get_nodes; left; reflexivity).
  split; [exact engine_stepped_reachable|].
  split; [exact Hsc|]. split; [exact Hn|].
  exact (advance_week_inventory_backorder_nonneg engine_stepped demo_gid demo_cid
           stepped_chain stepped_shop engine_stepped_reachable Hsc Hn).
Defined.

(** ** The weekly advance at work *)

(** C1 at the failing input: a game with one chain, a Shop and a customer
    order of 30. [advance_week] returns true and moves the game to week 1,
    but the chain is exactly as before: the Shop still holds 100 units, its
    histories are empty and the chain's own week is still 0. The same engine
    stepped through [_process_supply_chain_week] with the index 0 does
    process the Shop (70 units left, one history entry, chain week 1). *)
Theorem advance_week_leaves_nodes_unprocessed :
  let after := (advance_week engine_demand demo_gid).2 in
  (advance_week engine_demand demo_gid).1 = true
  /\ (game_current_week <$> games after !! demo_gid) = Some 1
  /\ engine_supply_chains after !! demo_cid
     = Some (with_shop lone_chain (Some (shop_node 30)))
  /\ engine_supply_chains after = engine_supply_chains engine_demand
  /\ (shop <$> engine_supply_chains
                 (_process_supply_chain_week engine_demand demo_gid (py_int 0) 1)
               !! demo_cid)
     = Some (Some (_process_node_week ∅ lone_chain (shop_node 30) 1).1)
  /\ inventory (_process_node_week ∅ lone_chain (shop_node 30) 1).1 = 70
  /\ inventory_history (_process_node_week ∅ lone_chain (shop_node 30) 1).1 = [70].
Proof.
  cbv zeta. repeat split; vm_compute; reflexivity.
Qed.

(** C6 at the failing input: a Retailer and a Wholesaler join, the game is
    advanced to week 3 and the Retailer orders 50. The chain's own week was
    never set, so the order is created at week 0 for delivery at week 4; and
    whether the game stands at week 4 or at week 7, the ledger still holds
    the order as pending, without delivery week, and the Wholesaler's stock
    is the initial 100. *)
Theorem placed_order_is_never_delivered :
  (game_current_week <$> games engine_week3 !! demo_gid) = Some 3
  /\ (process_order uuid_d engine_week3 demo_gid "chain_0" "Retailer" "Wholesaler" 50).1
     = Return (Some "order_deadbeef")
  /\ orders engine_ordered !! demo_cid = Some [demo_order]
  /\ (game_current_week <$> games (advance_weeks 1 engine_ordered demo_gid) !! demo_gid)
     = Some 4
  /\ orders (advance_weeks 1 engine_ordered demo_gid) !! demo_cid = Some [demo_order]
  /\ (game_current_week <$> games engine_week7 !! demo_gid) = Some 7
  /\ orders engine_week7 !! demo_cid = Some [demo_order]
  /\ status demo_order = PENDING /\ actual_delivery_week demo_order = None
  /\ (inventory <$> ((engine_supply_chains engine_week7 !! demo_cid) ≫= wholesaler))
     = Some 100.
Proof.
  repeat split; vm_compute; reflexivity.
Qed.

(** ** Why the weekly advance finds no chain

    Game ids are ["game_"] followed by eight characters, chain ids are a game
    id followed by ["_chain_"] and a decimal index. The key that
    [advance_week] makes [_process_supply_chain_week] look up is a game id
    followed by ["_chain_"] and a whole chain id, and no chain is stored under
    such a key. *)

Lemma substring_0_length (n : nat) (s : string) :
  (n <= String.length s)%nat -> String.length (String.substring 0 n s) = n.
Proof.
  revert s. induction n as [|n IH]; intros [|c s] Hn; simpl in *; try lia.
  rewrite IH; lia.
Qed.

Lemma generate_game_id_shape (uuid : string) :
  is_uuid uuid -> is_game_id (generate_game_id uuid).
Proof.
  intros Hu. exists (String.substring 0 8 uuid). split; [reflexivity|].
  apply substring_0_length. unfold is_uuid in Hu. lia.
Qed.

Lemma append_same_length_inj (a a' b b' : string) :
  String.length a = String.length a' -> a +:+ b = a' +:+ b' -> a = a' /\ b = b'.
Proof.
  revert a'. induction a as [|c a IH]; intros [|c' a'] Hl H; simpl in *;
    try discriminate.
  - by split.
  - injection H as -> H. injection Hl as Hl.
    destruct (IH a' Hl H) as [-> ->]. by split.
Qed.

Lemma pretty_N_go_no_g (x : N) (s : string) :
  (forall t, s <> String "g"%char t) -> forall t, pretty_N_go x s <> String "g"%char t.
Proof.
  revert s. induction (N.lt_wf_0 x) as [x _ IH]; intros s Hs t.
  destruct (decide (x = 0%N)) as [->|Hx].
  - rewrite pretty_N_go_0. apply Hs.
  - rewrite pretty_N_go_step by lia. apply IH.
    + apply N.div_lt; lia.
    + intros t'. unfold pretty_N_char. repeat case_match; discriminate.
Qed.

Lemma pretty_index_no_g (i : nat) (t : string) :
  pretty (Z.of_nat i) <> String "g"%char t.
Proof.
  destruct (Z.of_nat i) as [|p|p] eqn:E; [discriminate| |lia].
  unfold pretty, pretty_Z, pretty, pretty_positive, pretty, pretty_N.
  case_decide; [discriminate|].
  apply pretty_N_go_no_g. discriminate.
Qed.

Lemma game_prefix_length (u : string) :
  String.length ("game_" +:+ u) = S (S (S (S (S (String.length u))))).
Proof. reflexivity. Qed.

Lemma game_prefix_head (u rest : string) :
  ("game_" +:+ u) +:+ rest = String "g"%char (("ame_" +:+ u) +:+ rest).
Proof. reflexivity. Qed.

Lemma chain_key_missing (e : BeerGameEngine) (gid cid : string) :
  ids_wf e -> is_game_id gid -> is_chain_id_of gid cid ->
  engine_supply_chains e !! (gid +:+ "_chain_" +:+ cid) = None.
Proof.
  intros [_ Hk] (u & -> & Hu) (i & ->).
  destruct (engine_supply_chains e !! _) as [sc|] eqn:E; [|reflexivity].
  destruct (Hk _ _ E) as (g' & (u' & -> & Hu') & (j & Hj)).
  apply (append_same_length_inj ("game_" +:+ u) ("game_" +:+ u')) in Hj as [_ Hj];
    [|by rewrite !game_prefix_length, Hu, Hu'].
  apply (inj (String.app "_chain_")) in Hj.
  rewrite game_prefix_head in Hj.
  symmetry in Hj. by apply pretty_index_no_g in Hj.
Qed.

Lemma process_supply_chain_week_misses (e : BeerGameEngine) (gid cid : string)
    (week : Z) :
  ids_wf e -> is_game_id gid -> is_chain_id_of gid cid ->
  _process_supply_chain_week e gid (py_str cid) week = e.
Proof.
  intros He Hg Hc. unfold _process_supply_chain_week. simpl.
  by rewrite (chain_key_missing e gid cid He Hg Hc).
Qed.

(** In a well-formed engine [advance_week] moves the week counter of the
    game and nothing else. *)
Lemma advance_week_only_counts (self : BeerGameEngine) (gid : string) (game : Game) :
  ids_wf self -> games self !! gid = Some game ->
  advance_week self gid
  = (true, with_games self (<[gid := next_week game]> (games self))).
Proof.
  intros Hwf Hg. unfold advance_week. rewrite Hg. f_equal.
  destruct (proj1 Hwf _ _ Hg) as [Hgid Hl].
  assert (ids_wf (with_games self (<[gid := next_week game]> (games self)))) as Hwf'.
  { split; [|exact (proj2 Hwf)].
    intros g g0. simpl. rewrite lookup_insert_Some.
    intros [[<- <-]|[_ H0]]; [by split | by apply (proj1 Hwf)]. }
  revert Hwf'. generalize (with_games self (<[gid := next_week game]> (games self))).
  simpl. generalize (game_current_week game + 1). intros w e He.
  induction Hl as [|cid l Hc _ IH]; [reflexivity|].
  simpl. by rewrite process_supply_chain_week_misses.
Qed.

(** Well-formedness only depends on the games and on the set of chain keys. *)
Lemma ids_wf_same_keys (e e' : BeerGameEngine) :
  games e' = games e ->
  (forall k, is_Some (engine_supply_chains e' !! k) ->
             is_Some (engine_supply_chains e !! k)) ->
  ids_wf e -> ids_wf e'.
Proof.
  intros Hg Hk [H1 H2]. split.
  - rewrite Hg. exact H1.
  - intros k sc Hsc. destruct (Hk k (mk_is_Some _ _ Hsc)) as [sc0 Hsc0].
    by eapply H2.
Qed.

Lemma insert_present_keys (m : gmap string SupplyChain) (k : string)
    (sc sc' : SupplyChain) :
  m !! k = Some sc -> forall k', is_Some (<[k := sc']> m !! k') -> is_Some (m !! k').
Proof.
  intros Hk k'. destruct (decide (k = k')) as [<-|Hne].
  - intros _. by rewrite Hk.
  - by rewrite lookup_insert_ne.
Qed.

Lemma create_chains_ids_wf (gid : string) (l : list nat) (e : BeerGameEngine) :
  is_game_id gid -> ids_wf e -> ids_wf (foldl (create_chain gid) e l).
Proof.
  intros Hgid. revert e. induction l as [|i l IH]; intros e [H1 H2]; [by split|].
  simpl. apply IH. split; unfold create_chain; simpl.
  - intros g game. rewrite lookup_alter_Some.
    intros [(<- & game0 & Hg0 & ->)|[_ Hg]]; [|by apply H1].
    destruct (H1 _ _ Hg0) as [Hid Hl]. split; [exact Hid|].
    simpl. apply Forall_app. split; [exact Hl|].
    constructor; [|constructor]. by exists i.
  - intros k sc. rewrite lookup_insert_Some.
    intros [[<- _]|[_ Hk]]; [|by eapply H2].
    exists gid. split; [exact Hgid|]. by exists i.
Qed.

Lemma create_game_ids_wf (uuid : string) (self : BeerGameEngine)
    (n w : Z) (p : string) :
  is_uuid uuid -> ids_wf self -> ids_wf (create_game uuid self n w p).2.
Proof.
  intros Hu [H1 H2]. unfold create_game. simpl.
  apply create_chains_ids_wf; [by apply generate_game_id_shape|].
  split; [|exact H2].
  intros g game. simpl. rewrite lookup_insert_Some.
  intros [[<- <-]|[_ Hg]]; [|by apply H1].
  split; [by apply generate_game_id_shape | constructor].
Qed.

Lemma join_game_ids_wf (uuid : string) (self : BeerGameEngine)
    (gid c r pname : string) :
  ids_wf self -> ids_wf (join_game uuid self gid c r pname).2.
Proof.
  intros H. unfold join_game.
  destruct (games self !! gid); [|exact H].
  case_decide; [|exact H].
  destruct (engine_supply_chains self !! _) as [sc|] eqn:E; [|exact H].
  apply (ids_wf_same_keys self); [reflexivity| |exact H].
  simpl. by eapply insert_present_keys.
Qed.

Lemma place_customer_order_ids_wf (self : BeerGameEngine)
    (gid c : string) (week qty : Z) :
  ids_wf self -> ids_wf (place_customer_order self gid c week qty).2.
Proof.
  intros H. unfold place_customer_order.
  destruct (engine_supply_chains self !! _) as [sc|] eqn:E; [|exact H].
  destruct (shop sc); [|exact H].
  apply (ids_wf_same_keys self); [reflexivity| |exact H].
  simpl. by eapply insert_present_keys.
Qed.

Lemma process_order_ids_wf (uuid : string) (self : BeerGameEngine)
    (gid c rf rt : string) (qty : Z) :
  ids_wf self -> ids_wf (process_order uuid self gid c rf rt qty).2.
Proof.
  intros H. unfold process_order.
  destruct (engine_supply_chains self !! _) as [sc|] eqn:E; [|exact H].
  destruct (get_node sc rf); [|exact H].
  destruct (get_node sc rt); [|exact H].
  destruct (orders self !! _); [|exact H].
  apply (ids_wf_same_keys self); [reflexivity| |exact H].
  simpl. by eapply insert_present_keys.
Qed.

Lemma advance_week_ids_wf (self : BeerGameEngine) (gid : string) :
  ids_wf self -> ids_wf (advance_week self gid).2.
Proof.
  intros H. destruct (games self !! gid) as [game|] eqn:Hg.
  - rewrite (advance_week_only_counts self gid game H Hg). simpl.
    split; [|exact (proj2 H)].
    intros g g0. simpl. rewrite lookup_insert_Some.
    intros [[<- <-]|[_ H0]]; [exact (proj1 H _ _ Hg) | by apply (proj1 H)].
  - unfold advance_week. by rewrite Hg.
Qed.

Lemma process_supply_chain_week_ids_wf (self : BeerGameEngine)
    (gid : string) (chain_index : py_value) (week : Z) :
  ids_wf self -> ids_wf (_process_supply_chain_week self gid chain_index week).
Proof.
  intros H. unfold _process_supply_chain_week.
  destruct (engine_supply_chains self !! _) as [sc|] eqn:E; [|exact H].
  destruct (process_nodes _ _) as [sc' l'].
  apply (ids_wf_same_keys self); [reflexivity| |exact H].
  simpl. by eapply insert_present_keys.
Qed.

Lemma reachable_ids_wf (e : BeerGameEngine) : reachable e -> ids_wf e.
Proof.
  induction 1.
  - split; intros k x; simpl; by rewrite lookup_empty.
  - by apply create_game_ids_wf.
  - by apply join_game_ids_wf.
  - by apply place_customer_order_ids_wf.
  - by apply process_order_ids_wf.
  - by apply advance_week_ids_wf.
  - by apply process_supply_chain_week_ids_wf.
Qed.

(** Whatever the interface has built, [advance_week] changes neither a chain
    nor a ledger. *)
Lemma reachable_advance_week_keeps_chains (e : BeerGameEngine) (gid : string) :
  reachable e ->
  engine_supply_chains (advance_week e gid).2 = engine_supply_chains e
  /\ orders (advance_week e gid).2 = orders e.
Proof.
  intros Hr. destruct (games e !! gid) as [game|] eqn:Hg.
  - rewrite (advance_week_only_counts e gid game (reachable_ids_wf e Hr) Hg).
    by split.
  - unfold advance_week. rewrite Hg. by split.
Qed.

(** ** Lead time and delivery matching *)

(** A successful [process_order] appends one pending order to the chain's
    ledger, due four weeks after the chain's own week. *)
Lemma process_order_delivery_week (uuid : string) (self : BeerGameEngine)
    (gid c rf rt : string) (qty : Z) (oid : string) :
  (process_order uuid self gid c rf rt qty).1 = Return (Some oid) ->
  exists sc ledger o,
    engine_supply_chains self !! (gid +:+ "_" +:+ c) = Some sc
    /\ orders self !! (gid +:+ "_" +:+ c) = Some ledger
    /\ orders (process_order uuid self gid c rf rt qty).2 !! (gid +:+ "_" +:+ c)
       = Some (ledger ++ [o])
    /\ order_id o = oid /\ quantity o = qty /\ status o = PENDING
    /\ created_week o = current_week sc
    /\ delivery_week o = current_week sc + 4.
Proof.
  unfold process_order.
  destruct (engine_supply_chains self !! _) as [sc|] eqn:E; [|discriminate].
  destruct (get_node sc rf) as [nf|]; [|discriminate].
  destruct (get_node sc rt) as [nt|]; [|discriminate].
  destruct (orders self !! _) as [ledger|] eqn:El; [|discriminate].
  simpl. intros [= <-]. eexists sc, ledger, _.
  split; [reflexivity|]. split; [reflexivity|].
  split; [apply lookup_insert_eq|]. repeat split.
Qed.

(** An order is matched as an arrival in no week but its delivery week, and
    for no role but its addressee. *)
Lemma arrives_only_when_due (r : string) (week : Z) (o : Order) :
  arrives r week o = true -> to_role o = r /\ delivery_week o = week.
Proof.
  unfold arrives. intros H. apply andb_prop in H as [H1 H2].
  split; [by apply bool_decide_eq_true in H1 | by apply bool_decide_eq_true in H2].
Qed.

Lemma scan_order_other_week (r : string) (week : Z) (o : Order) :
  week <> delivery_week o -> scan_order r week o = o.
Proof.
  intros Hw. unfold scan_order. destruct (arrives r week o) eqn:E; [|reflexivity].
  apply arrives_only_when_due in E as [_ E]. congruence.
Qed.

Lemma scan_order_due (o : Order) :
  status (scan_order (to_role o) (delivery_week o) o) = DELIVERED
  /\ actual_delivery_week (scan_order (to_role o) (delivery_week o) o)
     = Some (delivery_week o).
Proof.
  unfold scan_order, arrives. rewrite !bool_decide_eq_true_2 by reflexivity.
  split; reflexivity.
Qed.

(** The chain step itself, called with the chain index, delivers the order
    of the test run in week 4: the ledger entry is stamped and the
    Wholesaler's stock grows by 50. In weeks 3 and 5 it leaves the order
    alone. *)
Lemma process_supply_chain_week_delivers :
  let step (w : Z) := _process_supply_chain_week engine_ordered demo_gid (py_int 0) w in
  orders (step 4) !! demo_cid = Some [deliver 4 demo_order]
  /\ (inventory <$> ((engine_supply_chains (step 4) !! demo_cid) ≫= wholesaler))
     = Some 150
  /\ orders (step 3) !! demo_cid = Some [demo_order]
  /\ orders (step 5) !! demo_cid = Some [demo_order].
Proof. cbv zeta. repeat split; vm_compute; reflexivity. Qed.

(** ** Role slots of a chain *)

Lemma elem_of_BEER_GAME_ROLES (r : string) :
  r ∈ BEER_GAME_ROLES <->
  r = "Shop" \/ r = "Retailer" \/ r = "Wholesaler" \/ r = "Factory".
Proof.
  rewrite BEER_GAME_ROLES_eq. rewrite !elem_of_cons, elem_of_nil. tauto.
Qed.

Lemma get_node_after_set_node (sc : SupplyChain) (r r' : string) (n : SupplyChainNode) :
  r ∈ BEER_GAME_ROLES ->
  get_node (set_node sc r n) r' = if decide (r' = r) then Some n else get_node sc r'.
Proof.
  intros Hr. apply elem_of_BEER_GAME_ROLES in Hr.
  destruct Hr as [-> | [-> | [-> | ->]]]; unfold set_node, get_node;
    repeat (case_decide; simplify_eq; try reflexivity).
Qed.

(** X1: for one of the four roles, [set_node] writes exactly the slot that
    [get_node] reads under that name: the role reads back the new node and
    every other name reads what it read before. *)
Theorem get_node_set_node (sc : SupplyChain) (r r' : string) (n : SupplyChainNode) :
  r ∈ BEER_GAME_ROLES ->
  get_node (set_node sc r n) r' = if decide (r' = r) then Some n else get_node sc r'.
Proof. exact (get_node_after_set_node sc r r' n). Qed.

Lemma get_node_set_node_witness :
  "Retailer" ∈ BEER_GAME_ROLES
  /\ get_node (set_node lone_chain "Retailer" (shop_node 30)) "Retailer"
     = Some (shop_node 30).
Proof.
  assert ("Retailer" ∈ BEER_GAME_ROLES) as H
    by (apply elem_of_BEER_GAME_ROLES; auto).
  split; [exact H|].
  exact (get_node_set_node lone_chain "Retailer" "Retailer" (shop_node 30) H).
Defined.

Lemma get_node_outside_roles (sc : SupplyChain) (r : string) :
  r ∉ BEER_GAME_ROLES -> get_node sc r = None.
Proof.
  intros Hr. rewrite elem_of_BEER_GAME_ROLES in Hr.
  unfold get_node. repeat case_decide; tauto.
Qed.

(** X2: under any other name [set_node] stores nothing, without an error,
    and [get_node] finds nothing. *)
Theorem set_node_unknown_role (sc : SupplyChain) (r : string) (n : SupplyChainNode) :
  r ∉ BEER_GAME_ROLES ->
  set_node sc r n = sc /\ get_node sc r = None.
Proof.
  intros Hr. split; [|by apply get_node_outside_roles].
  rewrite elem_of_BEER_GAME_ROLES in Hr.
  unfold set_node. repeat case_decide; tauto.
Qed.

Lemma set_node_unknown_role_witness :
  ("shop" ∉ BEER_GAME_ROLES)
  /\ set_node lone_chain "shop" (shop_node 30) = lone_chain
  /\ get_node lone_chain "shop" = None.
Proof.
  assert ("shop" ∉ BEER_GAME_ROLES) as H.
  { rewrite elem_of_BEER_GAME_ROLES. intros [?|[?|[?|?]]]; discriminate. }
  split; [exact H|].
  exact (set_node_unknown_role lone_chain "shop" (shop_node 30) H).
Defined.

(** X3: [get_nodes] lists exactly the nodes [get_node] can return for the
    four roles, never more than four of them. *)
Theorem get_nodes_are_role_nodes (sc : SupplyChain) (n : SupplyChainNode) :
  (n ∈ get_nodes sc <-> exists r, r ∈ BEER_GAME_ROLES /\ get_node sc r = Some n)
  /\ (length (get_nodes sc) <= 4)%nat.
Proof.
  split.
  - rewrite elem_of_get_nodes. split.
    + intros [H|[H|[H|H]]];
        [exists "Shop"|exists "Retailer"|exists "Wholesaler"|exists "Factory"];
        (split; [apply elem_of_BEER_GAME_ROLES; auto | exact H]).
    + intros (r & Hr & Hn). apply elem_of_BEER_GAME_ROLES in Hr.
      destruct Hr as [-> | [-> | [-> | ->]]]; unfold get_node in Hn; simpl in Hn; auto.
  - unfold get_nodes, slots.
    destruct (shop sc), (retailer sc), (wholesaler sc), (factory sc); simpl; lia.
Qed.

(** ** Exported dictionaries *)

Lemma last_entries_short {A} (n : nat) (l : list A) :
  (length l <= n)%nat -> last_entries n l = l.
Proof.
  intros H. unfold last_entries.
  replace (length l - n)%nat with 0%nat by lia. reflexivity.
Qed.

(** X4: [to_dict] shows a node as it is, field for field, as long as
    neither history is longer than 52 entries. *)
Theorem to_dict_short_history (n : SupplyChainNode) :
  (length (orders_history n) <= 52)%nat ->
  (length (inventory_history n) <= 52)%nat ->
  to_dict n = n.
Proof.
  intros Ho Hi. unfold to_dict. rewrite !last_entries_short by assumption.
  by destruct n.
Qed.

Lemma to_dict_short_history_witness :
  (length (orders_history short_node) <= 52)%nat
  /\ (length (inventory_history short_node) <= 52)%nat
  /\ to_dict short_node = short_node.
Proof.
  assert (length (orders_history short_node) <= 52)%nat as Ho by (simpl; lia).
  assert (length (inventory_history short_node) <= 52)%nat as Hi by (simpl; lia).
  split; [exact Ho|]. split; [exact Hi|].
  exact (to_dict_short_history short_node Ho Hi).
Defined.

Lemma foldl_cost_sum (nodes : list SupplyChainNode) (acc : Q) :
  (foldl (fun a node => a + total_cost node) acc nodes == acc + sum_costs nodes)%Q.
Proof.
  revert acc. induction nodes as [|n l IH]; intros acc; simpl.
  - ring.
  - rewrite IH. ring.
Qed.

(** X5: the [total_cost] entry of [SupplyChain.to_dict] is the sum of the
    costs of the nodes present, recomputed at each call; the chain's own
    [total_cost] field does not enter it. *)
Theorem chain_to_dict_total_cost (sc : SupplyChain) :
  (dict_total_cost (chain_to_dict sc) == sum_costs (get_nodes sc))%Q.
Proof.
  unfold chain_to_dict, calculate_total_cost. simpl.
  rewrite foldl_cost_sum. ring.
Qed.

(** ** Clamping and demand patterns *)

Lemma py_min_le_l (a b : Q) : (py_min a b <= a)%Q.
Proof.
  unfold py_min. destruct (b ?= a)%Q eqn:E; try apply Qle_refl.
  apply Qlt_le_weak. by apply Qlt_alt.
Qed.

Lemma py_max_ge_l (a b : Q) : (a <= py_max a b)%Q.
Proof.
  unfold py_max. destruct (b ?= a)%Q eqn:E; try apply Qle_refl.
  apply Qlt_le_weak. by apply Qgt_alt.
Qed.

Lemma py_max_lub (a b c : Q) : (a <= c)%Q -> (b <= c)%Q -> (py_max a b <= c)%Q.
Proof. intros Ha Hb. unfold py_max. by destruct (b ?= a)%Q. Qed.

(** X6: with [min_val <= max_val] the result of [clamp] lies between the two
    bounds. *)
Theorem clamp_within_bounds (value min_val max_val : Q) :
  (min_val <= max_val)%Q ->
  (min_val <= clamp value min_val max_val)%Q
  /\ (clamp value min_val max_val <= max_val)%Q.
Proof.
  intros Hb. unfold clamp. split; [apply py_max_ge_l|].
  apply py_max_lub; [exact Hb | apply py_min_le_l].
Qed.

Lemma clamp_within_bounds_witness :
  (0 <= 10)%Q /\ (0 <= clamp 25 0 10)%Q /\ (clamp 25 0 10 <= 10)%Q.
Proof.
  assert (0 <= 10)%Q as H by (vm_compute; discriminate).
  split; [exact H|]. exact (clamp_within_bounds 25 0 10 H).
Defined.

(** X7: with the bounds the wrong way round, [max_val < min_val], [clamp]
    does not fail: it returns [min_val] whatever the value. *)
Theorem clamp_inverted_bounds (value min_val max_val : Q) :
  (max_val < min_val)%Q -> clamp value min_val max_val = min_val.
Proof.
  intros Hb. unfold clamp, py_max.
  assert (py_min max_val value < min_val)%Q as Hlt
    by (eapply Qle_lt_trans; [apply py_min_le_l | exact Hb]).
  destruct (py_min max_val value ?= min_val)%Q eqn:E; try reflexivity.
  apply Qgt_alt in E. exfalso.
  exact (Qlt_irrefl _ (Qlt_trans _ _ _ Hlt E)).
Qed.

Lemma clamp_inverted_bounds_witness :
  (3 < 8)%Q /\ clamp 5 8 3 = 8%Q.
Proof.
  assert (3 < 8)%Q as H by reflexivity.
  split; [exact H|]. exact (clamp_inverted_bounds 5 8 3 H).
Defined.

(** X8: the [step] pattern asks for [amplitude] in the first ten weeks of
    every twenty and for [offset] in the last ten, for negative week numbers
    as well (floor division). *)
Theorem calculate_demand_step (sine_term drawn week amplitude offset : Z) :
  calculate_demand sine_term drawn "step" week amplitude offset
  = if decide (week `mod` 20 < 10) then amplitude else offset.
Proof.
  unfold calculate_demand.
  destruct (decide ("step" = "sine_wave")) as [E|_]; [discriminate|].
  destruct (decide ("step" = "step")) as [_|E]; [|contradiction].
  pose proof (Z.div_mod week 20 ltac:(lia)) as Hw.
  pose proof (Z.mod_pos_bound week 20 ltac:(lia)) as Hb.
  assert (week `div` 10 = 2 * (week `div` 20) + (week `mod` 20) `div` 10) as Hd.
  { rewrite Hw at 1.
    replace (20 * (week `div` 20) + week `mod` 20)
      with (week `mod` 20 + (2 * (week `div` 20)) * 10) by lia.
    rewrite Z.div_add by lia. lia. }
  rewrite Hd.
  replace (2 * (week `div` 20) + (week `mod` 20) `div` 10)
    with ((week `mod` 20) `div` 10 + (week `div` 20) * 2) by lia.
  rewrite Z.mod_add by lia.
  destruct (decide (week `mod` 20 < 10)) as [Hlt|Hge].
  - rewrite Z.div_small by lia. reflexivity.
  - assert ((week `mod` 20) `div` 10 = 1) as ->
      by (symmetry; apply (Z.div_unique _ 10 1 (week `mod` 20 - 10)); lia).
    reflexivity.
Qed.

(** ** Delays *)

(** X9: an order that the ledger scan has stamped as delivered is reported
    as not delayed, whatever week is asked about. *)
Theorem delivered_order_is_not_delayed (r : string) (week asked : Z) (o : Order) :
  arrives r week o = true ->
  status (scan_order r week o) = DELIVERED
  /\ is_delayed (scan_order r week o) asked = false.
Proof.
  intros Ha. unfold scan_order. rewrite Ha.
  apply arrives_only_when_due in Ha as [_ <-].
  split; [reflexivity|]. unfold is_delayed. simpl.
  rewrite Z.gtb_ltb. apply Z.ltb_irrefl.
Qed.

Lemma delivered_order_is_not_delayed_witness :
  arrives "Wholesaler" 4 demo_order = true
  /\ status (scan_order "Wholesaler" 4 demo_order) = DELIVERED
  /\ is_delayed (scan_order "Wholesaler" 4 demo_order) 9 = false.
Proof.
  assert (arrives "Wholesaler" 4 demo_order = true) as H by reflexivity.
  split; [exact H|].
  exact (delivered_order_is_not_delayed "Wholesaler" 4 9 demo_order H).
Defined.

(** X10: an order that is not delivered is delayed exactly in the weeks
    after its delivery week, whatever its other status. *)
Theorem undelivered_order_delay (o : Order) (week : Z) :
  status o <> DELIVERED ->
  is_delayed o week = bool_decide (delivery_week o < week).
Proof.
  intros Hs. unfold is_delayed.
  destruct (decide (status o = DELIVERED)) as [E|_]; [contradiction|].
  rewrite bool_decide_eq_false_2 by exact Hs. rewrite andb_true_r.
  rewrite Z.gtb_ltb. destruct (Z.ltb_spec (delivery_week o) week).
  - by rewrite bool_decide_eq_true_2.
  - rewrite bool_decide_eq_false_2; [reflexivity | lia].
Qed.

Lemma undelivered_order_delay_witness :
  status demo_order <> DELIVERED
  /\ is_delayed demo_order 7 = bool_decide (delivery_week demo_order < 7).
Proof.
  assert (status demo_order <> DELIVERED) as H by discriminate.
  split; [exact H|]. exact (undelivered_order_delay demo_order 7 H).
Defined.

(** ** Chains of a new game *)

Lemma create_chains_games (gid : string) (l : list nat) (e : BeerGameEngine) (g : Game) :
  games e !! gid = Some g ->
  supply_chains <$> games (foldl (create_chain gid) e l) !! gid
  = Some (supply_chains g
          ++ ((fun i : nat => gid +:+ "_chain_" +:+ pretty (Z.of_nat i)) <$> l)).
Proof.
  revert e g. induction l as [|i l IH]; intros e g Hg; simpl.
  - rewrite Hg. simpl. by rewrite app_nil_r.
  - erewrite IH; last first.
    { unfold create_chain. simpl. rewrite lookup_alter_eq, Hg. reflexivity. }
    simpl. by rewrite <- app_assoc.
Qed.

Lemma create_chains_other_games (gid g' : string) (l : list nat) (e : BeerGameEngine) :
  g' <> gid -> games (foldl (create_chain gid) e l) !! g' = games e !! g'.
Proof.
  intros Hne. revert e. induction l as [|i l IH]; intros e; simpl; [reflexivity|].
  rewrite IH. unfold create_chain. simpl. by rewrite lookup_alter_ne.
Qed.

Lemma create_chains_other_chains (gid cid : string) (l : list nat) (e : BeerGameEngine) :
  cid ∉ ((fun i : nat => gid +:+ "_chain_" +:+ pretty (Z.of_nat i)) <$> l) ->
  engine_supply_chains (foldl (create_chain gid) e l) !! cid
  = engine_supply_chains e !! cid
  /\ orders (foldl (create_chain gid) e l) !! cid = orders e !! cid
  /\ order_queue (foldl (create_chain gid) e l) !! cid = order_queue e !! cid.
Proof.
  revert e. induction l as [|i l IH]; intros e Hn; simpl; [done|].
  rewrite fmap_cons, not_elem_of_cons in Hn. destruct Hn as [Hne Hn].
  destruct (IH (create_chain gid e i) Hn) as (-> & -> & ->).
  unfold create_chain. simpl. by rewrite !lookup_insert_ne.
Qed.

Lemma create_chains_new (gid cid : string) (l : list nat) (e : BeerGameEngine) :
  cid ∈ ((fun i : nat => gid +:+ "_chain_" +:+ pretty (Z.of_nat i)) <$> l) ->
  engine_supply_chains (foldl (create_chain gid) e l) !! cid
  = Some (new_SupplyChain cid gid)
  /\ orders (foldl (create_chain gid) e l) !! cid = Some []
  /\ order_queue (foldl (create_chain gid) e l) !! cid = Some [].
Proof.
  revert e. induction l as [|i l IH]; intros e Hin; simpl.
  - by apply elem_of_nil in Hin.
  - destruct (decide (cid ∈ ((fun i : nat => gid +:+ "_chain_" +:+ pretty (Z.of_nat i))
                               <$> l))) as [Hl|Hl]; [by apply IH|].
    rewrite fmap_cons, elem_of_cons in Hin. destruct Hin as [->|Hin]; [|contradiction].
    destruct (create_chains_other_chains gid _ l (create_chain gid e i) Hl)
      as (-> & -> & ->).
    unfold create_chain. simpl. by rewrite !lookup_insert_eq.
Qed.

(** X11: [create_game] returns the id under which it registers the game;
    the game lists the chains [<id>_chain_0], [<id>_chain_1], ... in that
    order, [max(0, num_chains)] of them, and each of them is stored as a chain
    without nodes, at week 0, with an empty ledger and an empty queue. *)
Theorem create_game_chains
    (uuid : string) (self : BeerGameEngine) (n w : Z) (p : string) :
  let gid := generate_game_id uuid in
  let e' := (create_game uuid self n w p).2 in
  (create_game uuid self n w p).1 = gid
  /\ (supply_chains <$> games e' !! gid) = Some (chain_names gid n)
  /\ length (chain_names gid n) = Z.to_nat n
  /\ Forall (fun cid =>
               engine_supply_chains e' !! cid = Some (new_SupplyChain cid gid)
               /\ orders e' !! cid = Some []
               /\ order_queue e' !! cid = Some [])
            (chain_names gid n).
Proof.
  cbv zeta. unfold create_game, chain_names. simpl. split; [reflexivity|].
  split; [|split].
  - rewrite (create_chains_games _ _ _ (empty_game (generate_game_id uuid) n w p));
      [reflexivity|].
    simpl. by rewrite lookup_insert_eq.
  - unfold py_range. by rewrite length_fmap, length_seq.
  - apply Forall_forall. intros cid Hin. by apply create_chains_new.
Qed.

(** X12: [create_game] leaves alone every game stored under another id and
    every chain, ledger and queue whose id is not one of the new chain
    names. *)
Theorem create_game_leaves_others
    (uuid : string) (self : BeerGameEngine) (n w : Z) (p : string)
    (g' cid : string) :
  g' <> generate_game_id uuid ->
  cid ∉ chain_names (generate_game_id uuid) n ->
  let e' := (create_game uuid self n w p).2 in
  games e' !! g' = games self !! g'
  /\ engine_supply_chains e' !! cid = engine_supply_chains self !! cid
  /\ orders e' !! cid = orders self !! cid
  /\ order_queue e' !! cid = order_queue self !! cid.
Proof.
  intros Hg Hc. cbv zeta. unfold create_game. simpl. split.
  - rewrite create_chains_other_games by exact Hg.
    simpl. by rewrite lookup_insert_ne.
  - exact (create_chains_other_chains (generate_game_id uuid) cid (py_range n)
             (with_games self
                (<[generate_game_id uuid :=
                     empty_game (generate_game_id uuid) n w p]> (games self)))
             Hc).
Qed.

Lemma create_game_leaves_others_witness :
  demo_gid <> generate_game_id uuid_c
  /\ (demo_cid ∉ chain_names (generate_game_id uuid_c) 2)
  /\ games (create_game uuid_c engine_demand 2 52 "step").2 !! demo_gid
     = games engine_demand !! demo_gid
  /\ engine_supply_chains (create_game uuid_c engine_demand 2 52 "step").2 !! demo_cid
     = engine_supply_chains engine_demand !! demo_cid
  /\ orders (create_game uuid_c engine_demand 2 52 "step").2 !! demo_cid
     = orders engine_demand !! demo_cid
  /\ order_queue (create_game uuid_c engine_demand 2 52 "step").2 !! demo_cid
     = order_queue engine_demand !! demo_cid.
Proof.
  assert (demo_gid <> generate_game_id uuid_c) as Hg by (vm_compute; discriminate).
  assert (demo_cid ∉ chain_names (generate_game_id uuid_c) 2) as Hc.
  { vm_compute. intros H.
    repeat (apply elem_of_cons in H as [H|H]; [discriminate|]).
    by apply elem_of_nil in H. }
  split; [exact Hg|]. split; [exact Hc|].
  exact (create_game_leaves_others uuid_c engine_demand 2 52 "step"
           demo_gid demo_cid Hg Hc).
Defined.

(** ** Joining, asking, ordering *)

Lemma node_at_insert (e : BeerGameEngine) (k0 : string) (sc : SupplyChain)
    (k r : string) :
  node_at (with_supply_chains e (<[k0 := sc]> (engine_supply_chains e))) k r
  = if decide (k = k0) then get_node sc r else node_at e k r.
Proof.
  unfold node_at. simpl. case_decide as E.
  - subst. by rewrite lookup_insert_eq.
  - by rewrite lookup_insert_ne.
Qed.

(** X13: when [join_game] returns a player id, it is the id it drew, the
    role is one of the four, and the slot now holds a new node for that
    player: initial inventory 100, no backorder, no cost, no history. This
    holds whether the slot was free or taken: a node already there is
    replaced. Games and ledgers are as before. *)
Theorem join_game_success (uuid : string) (self : BeerGameEngine)
    (gid sid r pname pid : string) :
  (join_game uuid self gid sid r pname).1 = Some pid ->
  let e' := (join_game uuid self gid sid r pname).2 in
  pid = generate_player_id uuid
  /\ r ∈ BEER_GAME_ROLES
  /\ node_at e' (gid +:+ "_" +:+ sid) r = Some (new_node r pid pname 100)
  /\ games e' = games self /\ orders e' = orders self.
Proof.
  unfold join_game.
  destruct (games self !! gid); [|discriminate].
  case_decide as Hr; [|discriminate].
  destruct (engine_supply_chains self !! _) as [sc|]; [|discriminate].
  cbn [fst snd]. intros [= <-]. split; [reflexivity|]. split; [exact Hr|].
  split; [|by split].
  rewrite node_at_insert. rewrite decide_True by reflexivity.
  rewrite get_node_after_set_node by exact Hr. by rewrite decide_True.
Qed.

Lemma join_game_success_witness :
  (join_game uuid_c engine_stepped demo_gid "chain_0" "Shop" "Bea").1
  = Some "player_0badcafe"
  /\ "player_0badcafe" = generate_player_id uuid_c
  /\ "Shop" ∈ BEER_GAME_ROLES
  /\ node_at (join_game uuid_c engine_stepped demo_gid "chain_0" "Shop" "Bea").2
       (demo_gid +:+ "_" +:+ "chain_0") "Shop"
     = Some (new_node "Shop" "player_0badcafe" "Bea" 100)
  /\ games (join_game uuid_c engine_stepped demo_gid "chain_0" "Shop" "Bea").2
     = games engine_stepped
  /\ orders (join_game uuid_c engine_stepped demo_gid "chain_0" "Shop" "Bea").2
     = orders engine_stepped.
Proof.
  assert ((join_game uuid_c engine_stepped demo_gid "chain_0" "Shop" "Bea").1
          = Some "player_0badcafe") as H by (vm_compute; reflexivity).
  split; [exact H|].
  exact (join_game_success uuid_c engine_stepped demo_gid "chain_0" "Shop" "Bea"
           "player_0badcafe" H).
Defined.

(** X14: [join_game] changes no slot but the one it fills: the node of any
    other chain, and of any other role of the same chain, is as before. *)
Theorem join_game_other_slots (uuid : string) (self : BeerGameEngine)
    (gid sid r pname k r' : string) :
  k <> gid +:+ "_" +:+ sid \/ r' <> r ->
  node_at (join_game uuid self gid sid r pname).2 k r' = node_at self k r'.
Proof.
  intros Hne. unfold join_game.
  destruct (games self !! gid); [|reflexivity].
  case_decide as Hr; [|reflexivity].
  destruct (engine_supply_chains self !! _) as [sc|] eqn:E; [|reflexivity].
  cbn [snd]. rewrite node_at_insert. case_decide as Hk; [|reflexivity].
  subst k. destruct Hne as [Hne|Hne]; [contradiction|].
  rewrite get_node_after_set_node by exact Hr. rewrite decide_False by exact Hne.
  unfold node_at. by rewrite E.
Qed.

Lemma join_game_other_slots_witness :
  (demo_cid <> demo_gid +:+ "_" +:+ "chain_0" \/ "Shop" <> "Factory")
  /\ node_at (join_game uuid_c engine_stepped demo_gid "chain_0" "Factory" "Bea").2
       demo_cid "Shop"
     = node_at engine_stepped demo_cid "Shop".
Proof.
  assert (demo_cid <> demo_gid +:+ "_" +:+ "chain_0" \/ "Shop" <> "Factory") as H
    by (right; discriminate).
  split; [exact H|].
  exact (join_game_other_slots uuid_c engine_stepped demo_gid "chain_0" "Factory"
           "Bea" demo_cid "Shop" H).
Defined.

(** X15: when [join_game] returns no player id, for an unknown game, an
    unknown chain or an unknown role, the engine is exactly as before. *)
Theorem join_game_failure (uuid : string) (self : BeerGameEngine)
    (gid sid r pname : string) :
  (join_game uuid self gid sid r pname).1 = None ->
  (join_game uuid self gid sid r pname).2 = self.
Proof.
  unfold join_game.
  destruct (games self !! gid); [|reflexivity].
  case_decide; [|reflexivity].
  destruct (engine_supply_chains self !! _); [discriminate|reflexivity].
Qed.

Lemma join_game_failure_witness :
  (join_game uuid_c engine_stepped demo_gid "chain_7" "Shop" "Bea").1 = None
  /\ (join_game uuid_c engine_stepped demo_gid "chain_7" "Shop" "Bea").2
     = engine_stepped.
Proof.
  assert ((join_game uuid_c engine_stepped demo_gid "chain_7" "Shop" "Bea").1 = None)
    as H by (vm_compute; reflexivity).
  split; [exact H|].
  exact (join_game_failure uuid_c engine_stepped demo_gid "chain_7" "Shop" "Bea" H).
Defined.

(** X16: customer orders do not add up: of two calls for the same chain the
    second alone decides the result and the engine state, whatever the
    weeks and the first quantity. *)
Theorem place_customer_order_last_wins (self : BeerGameEngine)
    (gid cid : string) (week1 week2 qty1 qty2 : Z) :
  place_customer_order (place_customer_order self gid cid week1 qty1).2
    gid cid week2 qty2
  = place_customer_order self gid cid week2 qty2.
Proof.
  unfold place_customer_order.
  destruct (engine_supply_chains self !! _) as [sc|] eqn:E; cbn [snd];
    [|by rewrite E].
  destruct (shop sc) as [s|] eqn:Es; cbn [snd]; [|by rewrite E, Es].
  simpl. rewrite lookup_insert_eq. simpl.
  unfold with_supply_chains. simpl. by rewrite insert_insert_eq.
Qed.

Lemma place_customer_order_served (self : BeerGameEngine)
    (gid cid : string) (week qty : Z) (sc : SupplyChain) (s : SupplyChainNode) :
  engine_supply_chains self !! (gid +:+ "_" +:+ cid) = Some sc ->
  shop sc = Some s ->
  place_customer_order self gid cid week qty
  = (true,
     with_supply_chains self
       (<[gid +:+ "_" +:+ cid := with_shop sc (Some (with_incoming_order s qty))]>
          (engine_supply_chains self))).
Proof. intros E Es. unfold place_customer_order. by rewrite E, Es. Qed.

Lemma place_customer_order_refused (self : BeerGameEngine)
    (gid cid : string) (week qty : Z) :
  node_at self (gid +:+ "_" +:+ cid) "Shop" = None ->
  place_customer_order self gid cid week qty = (false, self).
Proof.
  unfold node_at, place_customer_order.
  destruct (engine_supply_chains self !! _) as [sc|]; [|reflexivity].
  simpl. change (get_node sc "Shop") with (shop sc). by intros ->.
Qed.

Lemma node_at_shop (self : BeerGameEngine) (k : string) (s : SupplyChainNode) :
  node_at self k "Shop" = Some s ->
  exists sc, engine_supply_chains self !! k = Some sc /\ shop sc = Some s.
Proof.
  unfold node_at. destruct (engine_supply_chains self !! k) as [sc|]; [|discriminate].
  simpl. change (get_node sc "Shop") with (shop sc). intros H. by exists sc.
Qed.

(** X17: [place_customer_order] succeeds exactly when the chain is stored
    and has a Shop; it then sets the Shop's [incoming_order] and nothing else
    of any node. *)
Theorem place_customer_order_effect (self : BeerGameEngine)
    (gid cid : string) (week qty : Z) (k r : string) :
  let full := gid +:+ "_" +:+ cid in
  (place_customer_order self gid cid week qty).1
  = bool_decide (is_Some (node_at self full "Shop"))
  /\ node_at (place_customer_order self gid cid week qty).2 k r
     = if decide (k = full /\ r = "Shop")
       then (fun s => with_incoming_order s qty) <$> node_at self k r
       else node_at self k r.
Proof.
  cbv zeta. destruct (node_at self (gid +:+ "_" +:+ cid) "Shop") as [s|] eqn:Hs.
  - destruct (node_at_shop _ _ _ Hs) as (sc & E & Es).
    rewrite (place_customer_order_served self gid cid week qty sc s E Es).
    cbn [fst snd]. split; [by rewrite bool_decide_eq_true_2|].
    rewrite node_at_insert. destruct (decide (k = gid +:+ "_" +:+ cid)) as [->|Hk].
    + destruct (decide (r = "Shop")) as [->|Hr].
      * rewrite decide_True by done. by rewrite Hs.
      * rewrite decide_False by tauto.
        unfold node_at. rewrite E. simpl.
        unfold get_node. by rewrite !(decide_False (P := r = "Shop")) by done.
    + by rewrite decide_False by tauto.
  - rewrite (place_customer_order_refused self gid cid week qty Hs).
    cbn [fst snd]. split.
    + rewrite bool_decide_eq_false_2; [reflexivity|]. by intros [? ?].
    + case_decide as Hk; [|reflexivity]. destruct Hk as [-> ->]. by rewrite Hs.
Qed.

Lemma get_node_known_role (sc : SupplyChain) (r : string) (n : SupplyChainNode) :
  get_node sc r = Some n -> r ∈ BEER_GAME_ROLES.
Proof.
  intros H. destruct (decide (r ∈ BEER_GAME_ROLES)) as [Hr|Hr]; [exact Hr|].
  pose proof (get_node_outside_roles sc r Hr) as E. congruence.
Qed.

(** [process_order] in its three outcomes. *)
Lemma process_order_placed (uuid : string) (self : BeerGameEngine)
    (gid cid rf rt : string) (qty : Z)
    (sc : SupplyChain) (nf nt : SupplyChainNode) (ledger : list Order) :
  engine_supply_chains self !! (gid +:+ "_" +:+ cid) = Some sc ->
  get_node sc rf = Some nf -> get_node sc rt = Some nt ->
  orders self !! (gid +:+ "_" +:+ cid) = Some ledger ->
  exists o,
    process_order uuid self gid cid rf rt qty
    = (Return (Some (generate_id uuid "order")),
       {| games := games self;
          engine_supply_chains :=
            <[gid +:+ "_" +:+ cid := set_node sc rf (with_current_order nf qty)]>
              (engine_supply_chains self);
          orders := <[gid +:+ "_" +:+ cid := ledger ++ [o]]> (orders self);
          order_queue := order_queue self |}).
Proof.
  intros E Ef Et El. unfold process_order. rewrite E, Ef, Et, El. by eexists.
Qed.

Lemma process_order_cases (uuid : string) (self : BeerGameEngine)
    (gid cid rf rt : string) (qty : Z) :
  (exists sc nf nt ledger,
     engine_supply_chains self !! (gid +:+ "_" +:+ cid) = Some sc
     /\ get_node sc rf = Some nf /\ get_node sc rt = Some nt
     /\ orders self !! (gid +:+ "_" +:+ cid) = Some ledger)
  \/ ((process_order uuid self gid cid rf rt qty).2 = self
      /\ forall oid, (process_order uuid self gid cid rf rt qty).1 <> Return (Some oid)).
Proof.
  unfold process_order.
  destruct (engine_supply_chains self !! _) as [sc|] eqn:E; [|by right].
  destruct (get_node sc rf) as [nf|] eqn:Ef; [|by right].
  destruct (get_node sc rt) as [nt|] eqn:Et; [|by right].
  destruct (orders self !! _) as [ledger|] eqn:El; [|by right].
  left. by exists sc, nf, nt, ledger.
Qed.

(** X18: placing an order debits nothing: for every chain and role the node
    after [process_order] is the node before, except for the [current_order]
    field of the ordering node. Inventory, backorder, pending demand, cost
    and histories are untouched on both sides of the order. *)
Theorem process_order_no_debit (uuid : string) (self : BeerGameEngine)
    (gid cid rf rt : string) (qty : Z) (k r : string) :
  (fun n => with_current_order n 0)
    <$> node_at (process_order uuid self gid cid rf rt qty).2 k r
  = (fun n => with_current_order n 0) <$> node_at self k r.
Proof.
  destruct (process_order_cases uuid self gid cid rf rt qty)
    as [(sc & nf & nt & ledger & E & Ef & Et & El)|[-> _]]; [|reflexivity].
  destruct (process_order_placed uuid self gid cid rf rt qty sc nf nt ledger
              E Ef Et El) as [o ->].
  unfold node_at. cbn [snd engine_supply_chains].
  destruct (decide (k = gid +:+ "_" +:+ cid)) as [->|Hk].
  - rewrite lookup_insert_eq, E. simpl.
    rewrite get_node_after_set_node by (by eapply get_node_known_role).
    case_decide as Hr; [|reflexivity]. subst r. by rewrite Ef.
  - by rewrite lookup_insert_ne.
Qed.

(** X19: when [process_order] returns an order id, the chain's ledger has
    gained exactly one entry at its end: an order with that id and the
    quantity asked, pending, created in the chain's current week and due four
    weeks later. *)
Theorem process_order_records_order (uuid : string) (self : BeerGameEngine)
    (gid c rf rt : string) (qty : Z) (oid : string) :
  (process_order uuid self gid c rf rt qty).1 = Return (Some oid) ->
  exists sc ledger o,
    engine_supply_chains self !! (gid +:+ "_" +:+ c) = Some sc
    /\ orders self !! (gid +:+ "_" +:+ c) = Some ledger
    /\ orders (process_order uuid self gid c rf rt qty).2 !! (gid +:+ "_" +:+ c)
       = Some (ledger ++ [o])
    /\ order_id o = oid /\ quantity o = qty /\ status o = PENDING
    /\ created_week o = current_week sc
    /\ delivery_week o = current_week sc + 4.
Proof. exact (process_order_delivery_week uuid self gid c rf rt qty oid). Qed.

Lemma process_order_records_order_witness :
  (process_order uuid_d engine_week3 demo_gid "chain_0" "Retailer" "Wholesaler" 50).1
  = Return (Some "order_deadbeef")
  /\ exists sc ledger o,
       engine_supply_chains engine_week3 !! (demo_gid +:+ "_" +:+ "chain_0") = Some sc
       /\ orders engine_week3 !! (demo_gid +:+ "_" +:+ "chain_0") = Some ledger
       /\ orders (process_order uuid_d engine_week3 demo_gid "chain_0"
                    "Retailer" "Wholesaler" 50).2
            !! (demo_gid +:+ "_" +:+ "chain_0")
          = Some (ledger ++ [o])
       /\ order_id o = "order_deadbeef" /\ quantity o = 50 /\ status o = PENDING
       /\ created_week o = current_week sc
       /\ delivery_week o = current_week sc + 4.
Proof.
  assert ((process_order uuid_d engine_week3 demo_gid "chain_0"
             "Retailer" "Wholesaler" 50).1 = Return (Some "order_deadbeef")) as H
    by (vm_compute; reflexivity).
  split; [exact H|].
  exact (process_order_records_order uuid_d engine_week3 demo_gid "chain_0"
           "Retailer" "Wholesaler" 50 "order_deadbeef" H).
Defined.

(** X20: when [process_order] returns no order id, because the chain or one
    of the two nodes is missing, the engine is exactly as before: no order
    is recorded and no node is touched. *)
Theorem process_order_failure (uuid : string) (self : BeerGameEngine)
    (gid cid rf rt : string) (qty : Z) :
  (process_order uuid self gid cid rf rt qty).1 = Return None ->
  (process_order uuid self gid cid rf rt qty).2 = self.
Proof.
  intros H.
  destruct (process_order_cases uuid self gid cid rf rt qty)
    as [(sc & nf & nt & ledger & E & Ef & Et & El)|[Hs _]]; [|exact Hs].
  destruct (process_order_placed uuid self gid cid rf rt qty sc nf nt ledger
              E Ef Et El) as [o Ho].
  rewrite Ho in H. discriminate.
Qed.

Lemma process_order_failure_witness :
  (process_order uuid_d engine_demand demo_gid "chain_0" "Shop" "Retailer" 50).1
  = Return None
  /\ (process_order uuid_d engine_demand demo_gid "chain_0" "Shop" "Retailer" 50).2
     = engine_demand.
Proof.
  assert ((process_order uuid_d engine_demand demo_gid "chain_0" "Shop" "Retailer" 50).1
          = Return None) as H by (vm_compute; reflexivity).
  split; [exact H|].
  exact (process_order_failure uuid_d engine_demand demo_gid "chain_0"
           "Shop" "Retailer" 50 H).
Defined.

(** X21: the ledgers are append-only under [process_order]: the ledger of
    the chain keeps its entries in place and gains at most one at the end,
    and every other ledger is as before. *)
Theorem process_order_appends (uuid : string) (self : BeerGameEngine)
    (gid cid rf rt : string) (qty : Z) :
  exists tail,
    (length tail <= 1)%nat
    /\ forall k,
         orders (process_order uuid self gid cid rf rt qty).2 !! k
         = if decide (k = gid +:+ "_" +:+ cid)
           then (fun l => l ++ tail) <$> orders self !! k
           else orders self !! k.
Proof.
  destruct (process_order_cases uuid self gid cid rf rt qty)
    as [(sc & nf & nt & ledger & E & Ef & Et & El)|[-> _]].
  - destruct (process_order_placed uuid self gid cid rf rt qty sc nf nt ledger
                E Ef Et El) as [o ->].
    exists [o]. split; [simpl; lia|]. intros k. cbn [snd orders].
    case_decide as Hk.
    + subst k. by rewrite lookup_insert_eq, El.
    + by rewrite lookup_insert_ne.
  - exists []. split; [simpl; lia|]. intros k.
    case_decide; [|reflexivity].
    destruct (orders self !! k); simpl; [by rewrite app_nil_r | reflexivity].
Qed.

(** ** The week counter *)

Lemma process_supply_chain_week_games (e : BeerGameEngine) (gid : string)
    (chain_index : py_value) (week : Z) :
  games (_process_supply_chain_week e gid chain_index week) = games e
  /\ order_queue (_process_supply_chain_week e gid chain_index week) = order_queue e.
Proof.
  unfold _process_supply_chain_week.
  destruct (engine_supply_chains e !! _); [|by split].
  by destruct (process_nodes _ _).
Qed.

Lemma process_chains_games (gid : string) (week : Z) (l : list string)
    (e : BeerGameEngine) :
  games (foldl (fun e cid => _process_supply_chain_week e gid (py_str cid) week) e l)
  = games e.
Proof.
  revert e. induction l as [|cid l IH]; intros e; simpl; [reflexivity|].
  rewrite IH. apply process_supply_chain_week_games.
Qed.

Lemma advance_week_result_and_games (self : BeerGameEngine) (gid : string) :
  (advance_week self gid).1 = bool_decide (is_Some (games self !! gid))
  /\ games (advance_week self gid).2 = alter next_week gid (games self).
Proof.
  unfold advance_week. destruct (games self !! gid) as [game|] eqn:Hg; cbn [fst snd].
  - split; [by rewrite bool_decide_eq_true_2|].
    rewrite process_chains_games. simpl.
    apply map_eq. intros g. destruct (decide (g = gid)) as [->|Hne].
    + by rewrite lookup_insert_eq, lookup_alter_eq, Hg.
    + by rewrite lookup_insert_ne, lookup_alter_ne.
  - split; [by rewrite bool_decide_eq_false_2 by (by intros [? ?])|].
    apply map_eq. intros g. destruct (decide (g = gid)) as [->|Hne].
    + by rewrite lookup_alter_eq, Hg.
    + by rewrite lookup_alter_ne.
Qed.

(** X23: [advance_week] reports whether the game exists, adds exactly one to
    the week counter of that game and leaves every other field of it and
    every other game as they are, in any engine state. *)
Theorem advance_week_games (self : BeerGameEngine) (gid : string) :
  (advance_week self gid).1 = bool_decide (is_Some (games self !! gid))
  /\ games (advance_week self gid).2 = alter next_week gid (games self).
Proof. exact (advance_week_result_and_games self gid). Qed.

(** X24: in an engine built through the interface, [advance_week] changes
    no chain and no ledger: no node is processed and no order is stamped,
    because the key it makes the chain step look up is never stored. *)
Theorem advance_week_changes_no_chain (e : BeerGameEngine) (gid : string) :
  reachable e ->
  engine_supply_chains (advance_week e gid).2 = engine_supply_chains e
  /\ orders (advance_week e gid).2 = orders e.
Proof. exact (reachable_advance_week_keeps_chains e gid). Qed.

Lemma advance_week_changes_no_chain_witness :
  reachable engine_stepped
  /\ engine_supply_chains (advance_week engine_stepped demo_gid).2
     = engine_supply_chains engine_stepped
  /\ orders (advance_week engine_stepped demo_gid).2 = orders engine_stepped.
Proof.
  split; [exact engine_stepped_reachable|].
  exact (advance_week_changes_no_chain engine_stepped demo_gid
           engine_stepped_reachable).
Defined.

(** ** No missing key in a reachable engine *)

Lemma process_node_week_ledgers (ledgers : gmap string (list Order))
    (sc : SupplyChain) (n : SupplyChainNode) (week : Z) :
  (_process_node_week ledgers sc n week).2
  = alter (fmap (scan_order (role n) week)) (chain_id sc) ledgers.
Proof. reflexivity. Qed.

Lemma alter_is_Some {A} (f : A -> A) (m : gmap string A) (i k : string) :
  is_Some (alter f i m !! k) <-> is_Some (m !! k).
Proof.
  destruct (decide (i = k)) as [->|Hne].
  - rewrite lookup_alter_eq. by rewrite fmap_is_Some.
  - by rewrite lookup_alter_ne.
Qed.

Lemma process_slot_ledger_keys (week : Z)
    (slot : SupplyChain -> option SupplyChainNode)
    (store : SupplyChain -> option SupplyChainNode -> SupplyChain)
    (st : SupplyChain * gmap string (list Order)) (k : string) :
  (forall sc o, chain_id (store sc o) = chain_id sc) ->
  chain_id (process_slot week slot store st).1 = chain_id st.1
  /\ (is_Some ((process_slot week slot store st).2 !! k) <-> is_Some (st.2 !! k)).
Proof.
  intros Hstore. unfold process_slot. destruct (slot st.1) as [n|]; [|done].
  pose proof (process_node_week_ledgers st.2 st.1 n week) as Hl.
  destruct (_process_node_week st.2 st.1 n week) as [n' l']. simpl in *.
  subst l'. split; [apply Hstore | apply alter_is_Some].
Qed.

Lemma process_nodes_ledger_keys (week : Z)
    (st : SupplyChain * gmap string (list Order)) (k : string) :
  is_Some ((process_nodes week st).2 !! k) <-> is_Some (st.2 !! k).
Proof.
  unfold process_nodes.
  rewrite (proj2 (process_slot_ledger_keys week factory with_factory _ k
                    ltac:(reflexivity))).
  rewrite (proj2 (process_slot_ledger_keys week wholesaler with_wholesaler _ k
                    ltac:(reflexivity))).
  rewrite (proj2 (process_slot_ledger_keys week retailer with_retailer _ k
                    ltac:(reflexivity))).
  apply (process_slot_ledger_keys week shop with_shop _ k). reflexivity.
Qed.

(** The chain step keeps the sets of chain keys and of ledger keys. *)
Lemma process_supply_chain_week_keys (e : BeerGameEngine) (gid : string)
    (chain_index : py_value) (week : Z) (k : string) :
  (is_Some (engine_supply_chains (_process_supply_chain_week e gid chain_index week) !! k)
   <-> is_Some (engine_supply_chains e !! k))
  /\ (is_Some (orders (_process_supply_chain_week e gid chain_index week) !! k)
      <-> is_Some (orders e !! k)).
Proof.
  unfold _process_supply_chain_week.
  destruct (engine_supply_chains e !! _) as [sc|] eqn:E; [|done].
  pose proof (process_nodes_ledger_keys week (with_current_week sc week, orders e) k)
    as Hk.
  destruct (process_nodes _ _) as [sc' l']. simpl in *. split; [|exact Hk].
  rewrite lookup_insert_is_Some. split.
  - intros [<-|[_ H]]; [by rewrite E | exact H].
  - intros H.
    destruct (decide (gid +:+ "_chain_" +:+ py_format chain_index = k));
      [by left | by right].
Qed.

Lemma process_chains_keys (gid : string) (week : Z) (l : list string)
    (e : BeerGameEngine) (k : string) :
  (is_Some (engine_supply_chains
              (foldl (fun e cid => _process_supply_chain_week e gid (py_str cid) week)
                     e l) !! k)
   <-> is_Some (engine_supply_chains e !! k))
  /\ (is_Some (orders
                 (foldl (fun e cid => _process_supply_chain_week e gid (py_str cid) week)
                        e l) !! k)
      <-> is_Some (orders e !! k)).
Proof.
  revert e. induction l as [|cid l IH]; intros e; simpl; [done|].
  destruct (IH (_process_supply_chain_week e gid (py_str cid) week)) as [H1 H2].
  destruct (process_supply_chain_week_keys e gid (py_str cid) week k) as [H3 H4].
  split; [by rewrite H1 | by rewrite H2].
Qed.

Lemma advance_week_keys (e : BeerGameEngine) (gid k : string) :
  (is_Some (engine_supply_chains (advance_week e gid).2 !! k)
   <-> is_Some (engine_supply_chains e !! k))
  /\ (is_Some (orders (advance_week e gid).2 !! k) <-> is_Some (orders e !! k)).
Proof.
  unfold advance_week. destruct (games e !! gid) as [game|]; [|done].
  cbn [snd]. apply (process_chains_keys gid _ _ (with_games e _) k).
Qed.

Lemma create_chains_ledgers_present (gid : string) (l : list nat) (e : BeerGameEngine) :
  ledgers_present e -> ledgers_present (foldl (create_chain gid) e l).
Proof.
  revert e. induction l as [|i l IH]; intros e He; [exact He|].
  simpl. apply IH. intros k. unfold create_chain. simpl.
  rewrite !lookup_insert_is_Some. intros [<-|[Hne Hk]]; [by left|].
  right. split; [exact Hne | by apply He].
Qed.

Lemma reachable_ledgers_present (e : BeerGameEngine) :
  reachable e -> ledgers_present e.
Proof.
  induction 1 as [|uuid e n w p _ _ IH|uuid e g c r name _ _ IH|e g c w q _ IH
                  |uuid e g c rf rt q _ _ IH|e g _ IH|e g idx w _ IH].
  - intros k [? Hk]. simpl in Hk. by rewrite lookup_empty in Hk.
  - unfold create_game. cbn [snd]. by apply create_chains_ledgers_present.
  - unfold join_game. destruct (games e !! g); [|exact IH].
    case_decide; [|exact IH].
    destruct (engine_supply_chains e !! _) as [sc|] eqn:E; [|exact IH].
    intros k Hk. apply IH. revert Hk. simpl. by eapply insert_present_keys.
  - unfold place_customer_order.
    destruct (engine_supply_chains e !! _) as [sc|] eqn:E; [|exact IH].
    destruct (shop sc); [|exact IH].
    intros k Hk. apply IH. revert Hk. simpl. by eapply insert_present_keys.
  - destruct (process_order_cases uuid e g c rf rt q)
      as [(sc & nf & nt & ledger & E & Ef & Et & El)|[-> _]]; [|exact IH].
    destruct (process_order_placed uuid e g c rf rt q sc nf nt ledger E Ef Et El)
      as [o ->].
    intros k Hk. cbn [snd engine_supply_chains orders] in *.
    rewrite lookup_insert_is_Some.
    destruct (decide (g +:+ "_" +:+ c = k)) as [|Hne]; [by left|].
    right. split; [exact Hne|]. apply IH. by rewrite lookup_insert_ne in Hk.
  - intros k Hk. apply advance_week_keys. apply IH. by apply advance_week_keys in Hk.
  - intros k Hk. apply process_supply_chain_week_keys. apply IH.
    by apply process_supply_chain_week_keys in Hk.
Qed.

(** X22: in an engine built through the interface, [process_order] never
    fails on a missing ledger: it returns an order id or [None], not a
    [KeyError]. *)
Theorem process_order_never_raises (uuid : string) (self : BeerGameEngine)
    (gid cid rf rt : string) (qty : Z) :
  reachable self ->
  exists result, (process_order uuid self gid cid rf rt qty).1 = Return result.
Proof.
  intros Hr. pose proof (reachable_ledgers_present self Hr) as Hl.
  unfold process_order.
  destruct (engine_supply_chains self !! _) as [sc|] eqn:E; [|by eexists].
  destruct (get_node sc rf); [|by eexists].
  destruct (get_node sc rt); [|by eexists].
  destruct (Hl _ (mk_is_Some _ _ E)) as [ledger ->]. by eexists.
Qed.

Lemma process_order_never_raises_witness :
  reachable engine_stepped
  /\ exists result,
       (process_order uuid_d engine_stepped demo_gid "chain_0" "Shop" "Shop" 5).1
       = Return result.
Proof.
  split; [exact engine_stepped_reachable|].
  exact (process_order_never_raises uuid_d engine_stepped demo_gid "chain_0"
           "Shop" "Shop" 5 engine_stepped_reachable).
Defined.

Lemma chains_listed_mono (e e' : BeerGameEngine) :
  (forall g game', games e' !! g = Some game' ->
     exists game, games e !! g = Some game /\ supply_chains game' = supply_chains game) ->
  (forall k, is_Some (engine_supply_chains e !! k) ->
             is_Some (engine_supply_chains e' !! k)) ->
  chains_listed e -> chains_listed e'.
Proof.
  intros Hg Hk He g game' Hgame'.
  destruct (Hg g game' Hgame') as (game & Hgame & ->).
  eapply Forall_impl; [exact (He g game Hgame)|]. intros cid. apply Hk.
Qed.

Lemma chains_listed_update (e : BeerGameEngine) (k0 : string) (sc sc' : SupplyChain)
    (o : gmap string (list Order)) :
  engine_supply_chains e !! k0 = Some sc ->
  chains_listed e ->
  chains_listed {| games := games e;
                   engine_supply_chains := <[k0 := sc']> (engine_supply_chains e);
                   orders := o; order_queue := order_queue e |}.
Proof.
  intros E. apply chains_listed_mono.
  - intros g game' H. by exists game'.
  - intros k Hk. simpl. rewrite lookup_insert_is_Some'. by right.
Qed.

Lemma create_chains_listed (gid : string) (l : list nat) (e : BeerGameEngine) :
  chains_listed e -> chains_listed (foldl (create_chain gid) e l).
Proof.
  revert e. induction l as [|i l IH]; intros e He; [exact He|].
  simpl. apply IH. intros g game. unfold create_chain. simpl.
  rewrite lookup_alter_Some.
  intros [(<- & game0 & Hg0 & ->)|[_ Hg]].
  - simpl. apply Forall_app. split.
    + eapply Forall_impl; [exact (He _ _ Hg0)|].
      intros cid Hc. rewrite lookup_insert_is_Some'. by right.
    + constructor; [|constructor]. rewrite lookup_insert_is_Some'. by left.
  - eapply Forall_impl; [exact (He _ _ Hg)|].
    intros cid Hc. rewrite lookup_insert_is_Some'. by right.
Qed.

Lemma reachable_chains_listed (e : BeerGameEngine) :
  reachable e -> chains_listed e.
Proof.
  induction 1 as [|uuid e n w p _ _ IH|uuid e g c r name _ _ IH|e g c w q _ IH
                  |uuid e g c rf rt q _ _ IH|e g _ IH|e g idx w _ IH].
  - intros g game Hg. simpl in Hg. by rewrite lookup_empty in Hg.
  - unfold create_game. cbn [snd]. apply create_chains_listed.
    intros g game. simpl. rewrite lookup_insert_Some.
    intros [[_ <-]|[_ Hg]]; [apply Forall_nil_2 | exact (IH _ _ Hg)].
  - unfold join_game. destruct (games e !! g); [|exact IH].
    case_decide; [|exact IH].
    destruct (engine_supply_chains e !! _) as [sc|] eqn:E; [|exact IH].
    exact (chains_listed_update e _ sc _ (orders e) E IH).
  - unfold place_customer_order.
    destruct (engine_supply_chains e !! _) as [sc|] eqn:E; [|exact IH].
    destruct (shop sc); [|exact IH].
    exact (chains_listed_update e _ sc _ (orders e) E IH).
  - destruct (process_order_cases uuid e g c rf rt q)
      as [(sc & nf & nt & ledger & E & Ef & Et & El)|[-> _]]; [|exact IH].
    destruct (process_order_placed uuid e g c rf rt q sc nf nt ledger E Ef Et El)
      as [o ->].
    exact (chains_listed_update e _ sc _ _ E IH).
  - revert IH. apply chains_listed_mono.
    + intros g0 game'. rewrite (proj2 (advance_week_result_and_games e g)).
      rewrite lookup_alter_Some.
      intros [(<- & game & Hg & ->)|[_ Hg]]; [by exists game | by exists game'].
    + intros k Hk. by apply advance_week_keys.
  - revert IH. apply chains_listed_mono.
    + intros g0 game'. rewrite (proj1 (process_supply_chain_week_games e g idx w)).
      intros Hg. by exists game'.
    + intros k Hk. by apply process_supply_chain_week_keys.
Qed.

Lemma chain_dicts_listed (chains : gmap string SupplyChain) (l : list string) :
  Forall (fun cid => is_Some (chains !! cid)) l ->
  exists ds, chain_dicts chains l = Return ds /\ length ds = length l.
Proof.
  induction 1 as [|cid l [sc Hsc] _ (ds & IH & Hlen)]; simpl.
  - by exists [].
  - rewrite Hsc, IH. exists (chain_to_dict sc :: ds). split; [reflexivity|].
    simpl. by rewrite Hlen.
Qed.

(** X30: in an engine built through the interface, [get_game_state] of a
    stored game never fails on a missing chain: it returns a state that
    carries the game's week counter and one chain dictionary for each chain
    the game lists. *)
Theorem get_game_state_reachable (self : BeerGameEngine) (gid : string) (game : Game) :
  reachable self ->
  games self !! gid = Some game ->
  exists st,
    get_game_state self gid = Return (Some st)
    /\ state_current_week st = game_current_week game
    /\ state_weeks st = weeks game
    /\ length (state_supply_chains st) = length (supply_chains game).
Proof.
  intros Hr Hg. unfold get_game_state. rewrite Hg.
  destruct (chain_dicts_listed (engine_supply_chains self) (supply_chains game)
              (reachable_chains_listed self Hr gid game Hg)) as (ds & -> & Hlen).
  eexists. split; [reflexivity|]. by repeat split.
Qed.

Lemma get_game_state_reachable_witness :
  reachable engine_stepped
  /\ games engine_stepped !! demo_gid
     = Some (append_chain demo_cid (empty_game demo_gid 1 52 "sine_wave"))
  /\ exists st,
       get_game_state engine_stepped demo_gid = Return (Some st)
       /\ state_current_week st
          = game_current_week (append_chain demo_cid
                                 (empty_game demo_gid 1 52 "sine_wave"))
       /\ state_weeks st
          = weeks (append_chain demo_cid (empty_game demo_gid 1 52 "sine_wave"))
       /\ length (state_supply_chains st)
          = length (supply_chains (append_chain demo_cid
                                     (empty_game demo_gid 1 52 "sine_wave"))).
Proof.
  assert (games engine_stepped !! demo_gid
          = Some (append_chain demo_cid (empty_game demo_gid 1 52 "sine_wave"))) as Hg
    by (vm_compute; reflexivity).
  split; [exact engine_stepped_reachable|]. split; [exact Hg|].
  exact (get_game_state_reachable engine_stepped demo_gid _
           engine_stepped_reachable Hg).
Defined.

(** ** Arrivals *)

Lemma arrives_scan_order (r : string) (week : Z) (o : Order) :
  arrives r week (scan_order r week o) = arrives r week o.
Proof. unfold scan_order. by destruct (arrives r week o) eqn:E. Qed.

Lemma scan_order_twice (r : string) (week : Z) (o : Order) :
  scan_order r week (scan_order r week o) = scan_order r week o.
Proof.
  unfold scan_order at 1. rewrite arrives_scan_order.
  unfold scan_order. by destruct (arrives r week o).
Qed.

Lemma deliver_scan_order (r : string) (week : Z) (o : Order) :
  deliver week (scan_order r week o) = deliver week o.
Proof. unfold scan_order. by destruct (arrives r week o). Qed.

Lemma incoming_after_scan (r : string) (week : Z) (ledger : list Order) :
  deliver week <$> filter (fun o => arrives r week o = true)
                          (scan_order r week <$> ledger)
  = deliver week <$> filter (fun o => arrives r week o = true) ledger.
Proof.
  induction ledger as [|o l IH]; [reflexivity|].
  rewrite fmap_cons, !filter_cons, arrives_scan_order.
  case_decide; [|exact IH].
  rewrite !fmap_cons, deliver_scan_order. by f_equal.
Qed.

(** X25: every order [_get_incoming_orders] returns is addressed to the
    role asked for and due in the week asked for, and comes back stamped
    delivered in that week; the stamped order is the one now in the stored
    ledger. *)
Theorem get_incoming_orders_due (ledgers : gmap string (list Order))
    (cid r : string) (week : Z) :
  Forall (fun o =>
            to_role o = r /\ delivery_week o = week
            /\ status o = DELIVERED /\ actual_delivery_week o = Some week
            /\ o ∈ default [] ((_get_incoming_orders ledgers cid r week).2 !! cid))
         (_get_incoming_orders ledgers cid r week).1.
Proof.
  unfold _get_incoming_orders. cbn [fst snd].
  apply Forall_forall. intros o Ho.
  apply list_elem_of_fmap in Ho as (o0 & -> & Ho0).
  apply list_elem_of_filter in Ho0 as [Ha Hin].
  destruct (arrives_only_when_due _ _ _ Ha) as [Hr Hw].
  repeat split; try assumption.
  rewrite lookup_alter_eq. destruct (ledgers !! cid) as [ledger|]; simpl in *.
  - apply list_elem_of_fmap. exists o0. split; [|exact Hin].
    unfold scan_order. by rewrite Ha.
  - by apply elem_of_nil in Hin.
Qed.

(** X26: the scan does not look at the status of an order: a second scan for
    the same role and week returns the same orders again and leaves the
    ledgers as the first scan left them, so a chain processed twice in one
    week receives its arrivals twice. *)
Theorem get_incoming_orders_again (ledgers : gmap string (list Order))
    (cid r : string) (week : Z) :
  _get_incoming_orders (_get_incoming_orders ledgers cid r week).2 cid r week
  = _get_incoming_orders ledgers cid r week.
Proof.
  unfold _get_incoming_orders. cbn [snd]. f_equal.
  - rewrite lookup_alter_eq. destruct (ledgers !! cid) as [ledger|]; simpl.
    + apply incoming_after_scan.
    + reflexivity.
  - apply map_eq. intros k. destruct (decide (k = cid)) as [->|Hne].
    + rewrite !lookup_alter_eq. destruct (ledgers !! cid) as [ledger|]; simpl.
      * f_equal. rewrite <- list_fmap_compose. apply list_fmap_ext.
        intros i o _. apply scan_order_twice.
      * reflexivity.
    + by rewrite !lookup_alter_ne.
Qed.

(** ** More on the weekly step *)

(** X27: no node ends a week with both stock on hand and a backorder: after
    the step the inventory is 0 or the backorder is 0. *)
Theorem node_week_stock_or_backorder (ledgers : gmap string (list Order))
    (sc : SupplyChain) (n : SupplyChainNode) (week : Z) :
  inventory (_process_node_week ledgers sc n week).1 = 0
  \/ backorder (_process_node_week ledgers sc n week).1 = 0.
Proof.
  rewrite node_week_inventory, node_week_backorder.
  destruct (_ <? _) eqn:E; [left|by right].
  apply Z.ltb_lt in E. unfold week_fulfilled in *. lia.
Qed.

Lemma calculate_inventory_cost_nonneg (q : Z) (rate : Q) :
  (0 <= rate)%Q -> (0 <= calculate_inventory_cost q rate)%Q.
Proof.
  intros Hr. unfold calculate_inventory_cost.
  apply Qmult_le_0_compat; [|exact Hr].
  change 0%Q with (inject_Z 0). rewrite <- Zle_Qle. lia.
Qed.

Lemma calculate_backorder_cost_nonneg (q : Z) (rate : Q) :
  (0 <= rate)%Q -> (0 <= calculate_backorder_cost q rate)%Q.
Proof.
  intros Hr. unfold calculate_backorder_cost.
  apply Qmult_le_0_compat; [|exact Hr].
  change 0%Q with (inject_Z 0). rewrite <- Zle_Qle. lia.
Qed.

(** X28: a node's cumulative cost never goes down in a weekly step, whatever
    its stock, backorder and demand, negative values included. *)
Theorem node_week_cost_monotone (ledgers : gmap string (list Order))
    (sc : SupplyChain) (n : SupplyChainNode) (week : Z) :
  (total_cost n <= total_cost (_process_node_week ledgers sc n week).1)%Q.
Proof.
  rewrite node_week_total_cost.
  rewrite <- (Qplus_0_r (total_cost n)) at 1.
  apply Qplus_le_r.
  rewrite <- (Qplus_0_r 0). apply Qplus_le_compat.
  - apply calculate_inventory_cost_nonneg. vm_compute. discriminate.
  - apply calculate_backorder_cost_nonneg. vm_compute. discriminate.
Qed.

(** X29: the step of one chain is confined to it: every chain stored under
    another key, every game record and every order queue is as before. *)
Theorem process_supply_chain_week_confined (e : BeerGameEngine) (gid : string)
    (chain_index : py_value) (week : Z) :
  let key := gid +:+ "_chain_" +:+ py_format chain_index in
  let e' := _process_supply_chain_week e gid chain_index week in
  delete key (engine_supply_chains e') = delete key (engine_supply_chains e)
  /\ games e' = games e
  /\ order_queue e' = order_queue e.
Proof.
  cbv zeta. split; [|apply process_supply_chain_week_games].
  unfold _process_supply_chain_week.
  destruct (engine_supply_chains e !! _) as [sc|]; [|reflexivity].
  destruct (process_nodes _ _) as [sc' l']. simpl.
  by rewrite delete_insert_eq.
Qed.
